(** * botconfig: route guard and contact dashboard view-model

    A shallow embedding of the two pieces of logic of the dashboard:

    - [middleware] (the route guard that runs ahead of page rendering);
    - [ContactsDashboard] (formatPhoneNumber, fetchContacts, the delete and
      toggle handlers, applyFilters, the pagination values and goToPage).

    JavaScript strings are modelled as [string] (sequences of code units below
    256, i.e. Latin-1 text), JavaScript integers as [Z], arrays as [list],
    [Date] objects by their time value ([option Z], [None] standing for NaN),
    React state as a record threaded through the handlers, and the remote
    store as an oracle of responses together with a trace of the requests
    that were issued. *)

From Stdlib Require Import ZArith List String Ascii Bool Lia.
Import ListNotations.

Local Open Scope string_scope.
Local Open Scope Z_scope.

(* ===================================================================== *)
(** * Part I: definitions                                                  *)
(* ===================================================================== *)

(** ** The string built-ins the sources call *)

Module JSString.

(** [s.length] *)
Definition len (s : string) : Z := Z.of_nat (String.length s).

Fixpoint take (n : nat) (s : string) : string :=
  match n, s with
  | S n', String c s' => String c (take n' s')
  | _, _ => EmptyString
  end.

Fixpoint drop (n : nat) (s : string) : string :=
  match n, s with
  | S n', String _ s' => drop n' s'
  | _, _ => s
  end.

(** [s.substring(start, end)]: both indices are clamped to [0, length] and
    swapped when [start > end]. *)
Definition substring (s : string) (start end_ : Z) : string :=
  let clamp i := Z.min (Z.max i 0) (len s) in
  let a := clamp start in
  let b := clamp end_ in
  let from := Z.min a b in
  let to := Z.max a b in
  take (Z.to_nat (to - from)) (drop (Z.to_nat from) s).

(** [s.substring(start)]: the end index defaults to the length. *)
Definition substring_from (s : string) (start : Z) : string :=
  substring s start (len s).

(** [s.startsWith(p)] *)
Fixpoint startsWith (s p : string) {struct p} : bool :=
  match p, s with
  | EmptyString, _ => true
  | String c p', String d s' => Ascii.eqb c d && startsWith s' p'
  | String _ _, EmptyString => false
  end.

(** [s.includes(q)]: some suffix of [s] starts with [q]. *)
Fixpoint includes (s q : string) : bool :=
  startsWith s q ||
  match s with
  | EmptyString => false
  | String _ s' => includes s' q
  end.

(** The character class [\d] (without the unicode flag): [0-9]. *)
Definition is_digit (c : ascii) : bool :=
  let n := N_of_ascii c in
  (48 <=? n)%N && (n <=? 57)%N.

Fixpoint all_digits (s : string) : bool :=
  match s with
  | EmptyString => true
  | String c s' => is_digit c && all_digits s'
  end.

(** [s.replace(/\D/g, "")] *)
Fixpoint remove_non_digits (s : string) : string :=
  match s with
  | EmptyString => EmptyString
  | String c s' =>
      if is_digit c then String c (remove_non_digits s')
      else remove_non_digits s'
  end.

(** Lower-casing of one code unit below 256: A-Z, and the Latin-1 capitals
    U+00C0..U+00DE except the multiplication sign U+00D7. *)
Definition lower_char (c : ascii) : ascii :=
  let n := N_of_ascii c in
  if ((65 <=? n) && (n <=? 90))%N
     || ((192 <=? n) && (n <=? 222) && negb (n =? 215))%N
  then ascii_of_N (n + 32)
  else c.

(** [s.toLowerCase()] *)
Fixpoint toLowerCase (s : string) : string :=
  match s with
  | EmptyString => EmptyString
  | String c s' => String (lower_char c) (toLowerCase s')
  end.

(** Truthiness of a string: only the empty string is falsy. *)
Definition truthy (s : string) : bool :=
  match s with
  | EmptyString => false
  | String _ _ => true
  end.

End JSString.

(** Truthiness of a value that is either an object or [null]. *)
Definition is_some {A : Type} (o : option A) : bool :=
  match o with
  | Some _ => true
  | None => false
  end.

(** ** Sessions *)

Record User : Type := mkUser {
  user_id : string;
  user_email : string;
  user_phone : string
}.

Record Session : Type := mkSession {
  session_user : User;
  access_token : string
}.

(** ** The route guard (middleware.ts) *)

Module Middleware.

(** What the guard reads of the request: [req.nextUrl.pathname]. *)
Record NextRequest : Type := mkRequest {
  pathname : string
}.

(** [NextResponse.next()] or [NextResponse.redirect(new URL(path, req.url))];
    a redirect keeps the origin of the request and replaces its path. *)
Inductive NextResponse : Type :=
| next : NextResponse
| redirect : string -> NextResponse.

(** [middleware(req)], given the session that
    [supabase.auth.getSession()] answered ([None] for [null]). *)
Definition middleware (session : option Session) (req : NextRequest)
  : NextResponse :=
  let res := next in
  if negb (is_some session)
     && JSString.startsWith (pathname req) "/dashboard"
  then redirect "/login"
  else if is_some session
          && (String.eqb (pathname req) "/login"
              || String.eqb (pathname req) "/")
  then redirect "/dashboard"
  else res.

End Middleware.

(** ** formatPhoneNumber *)

Module Phone.
Import JSString.

(** [s.replace(/^(\d)(\d{4})(\d{4})$/, "$1 $2-$3")]: the pattern is
    anchored at both ends, so it matches exactly the strings made of nine
    digits; a string that does not match is returned as it is. *)
Definition replace_d_4_4 (s : string) : string :=
  if (len s =? 9) && all_digits s
  then substring s 0 1 ++ " " ++ substring s 1 5 ++ "-" ++ substring s 5 9
  else s.

(** [s.replace(/^(\d{4})(\d{4})$/, "$1-$2")] *)
Definition replace_4_4 (s : string) : string :=
  if (len s =? 8) && all_digits s
  then substring s 0 4 ++ "-" ++ substring s 4 8
  else s.

Definition formatPhoneNumber (number : string) : string :=
  if negb (truthy number) then ""
  else
    let digitsOnly := remove_non_digits number in
    let localNumber :=
      if startsWith digitsOnly "55" then substring_from digitsOnly 2
      else digitsOnly in
    let areaCode := substring localNumber 0 2 in
    let phoneNumber := substring_from localNumber 2 in
    let formattedNumber :=
      if len phoneNumber =? 9 then replace_d_4_4 phoneNumber
      else if len phoneNumber =? 8 then replace_4_4 phoneNumber
      else phoneNumber in
    "(" ++ areaCode ++ ") " ++ formattedNumber.

End Phone.

(** ** The Date built-ins the dashboard calls

    Time values are milliseconds since the epoch, as integers; the
    definitions follow the ECMAScript 'Date' algorithms.  The local time
    zone adjustment is a parameter: [LocalTZA t true] is the offset that
    applies at the UTC time [t], [LocalTZA t false] the one that applies at
    the local time [t]. *)

Module JSDate.

Definition msPerDay : Z := 86400000.
Definition msPerHour : Z := 3600000.
Definition msPerMinute : Z := 60000.
Definition msPerSecond : Z := 1000.

(** The largest magnitude of a time value; beyond it a Date is invalid. *)
Definition maxTime : Z := 8640000000000000.

Definition Day (t : Z) : Z := t / msPerDay.
Definition TimeWithinDay (t : Z) : Z := t mod msPerDay.

Definition DaysInYear (y : Z) : Z :=
  if negb (y mod 4 =? 0) then 365
  else if negb (y mod 100 =? 0) then 366
  else if negb (y mod 400 =? 0) then 365
  else 366.

Definition DayFromYear (y : Z) : Z :=
  365 * (y - 1970) + (y - 1969) / 4 - (y - 1901) / 100 + (y - 1601) / 400.

Definition TimeFromYear (y : Z) : Z := msPerDay * DayFromYear y.

(** The largest [y] with [TimeFromYear y <= t]: an estimate from the mean
    length of a year, corrected by at most one year. *)
Definition YearFromTime (t : Z) : Z :=
  let d := Day t in
  let y := 1970 + (400 * d) / 146097 in
  if d <? DayFromYear y then y - 1
  else if DayFromYear (y + 1) <=? d then y + 1
  else y.

Definition LeapDays (y : Z) : Z := DaysInYear y - 365.

Definition InLeapYear (t : Z) : Z := LeapDays (YearFromTime t).

Definition DayWithinYear (t : Z) : Z :=
  Day t - DayFromYear (YearFromTime t).

(** The day within the year on which month [m] (0 = January) starts, in a
    year with [leap] leap days. *)
Definition MonthStart (m leap : Z) : Z :=
  match m with
  | 0 => 0
  | 1 => 31
  | 2 => 59 + leap
  | 3 => 90 + leap
  | 4 => 120 + leap
  | 5 => 151 + leap
  | 6 => 181 + leap
  | 7 => 212 + leap
  | 8 => 243 + leap
  | 9 => 273 + leap
  | 10 => 304 + leap
  | _ => 334 + leap
  end.

Definition MonthFromTime (t : Z) : Z :=
  let d := DayWithinYear t in
  let leap := InLeapYear t in
  if d <? 31 then 0
  else if d <? 59 + leap then 1
  else if d <? 90 + leap then 2
  else if d <? 120 + leap then 3
  else if d <? 151 + leap then 4
  else if d <? 181 + leap then 5
  else if d <? 212 + leap then 6
  else if d <? 243 + leap then 7
  else if d <? 273 + leap then 8
  else if d <? 304 + leap then 9
  else if d <? 334 + leap then 10
  else 11.

Definition DateFromTime (t : Z) : Z :=
  DayWithinYear t - MonthStart (MonthFromTime t) (InLeapYear t) + 1.

Definition MakeTime (hour min sec ms : Z) : Z :=
  hour * msPerHour + min * msPerMinute + sec * msPerSecond + ms.

(** [MakeDay]: the day number of the first of month [month mod 12] of year
    [year + floor(month / 12)], plus [date - 1]. *)
Definition MakeDay (year month date : Z) : Z :=
  let ym := year + month / 12 in
  let mn := month mod 12 in
  DayFromYear ym + MonthStart mn (LeapDays ym) + date - 1.

Definition MakeDate (day time : Z) : Z := day * msPerDay + time.

(** [TimeClip]: NaN outside of the representable range. *)
Definition TimeClip (t : Z) : option Z :=
  if maxTime <? Z.abs t then None else Some t.

(** A Date object, by its time value. *)
Definition Date : Type := option Z.

(** [a >= b] on two Dates: both are converted to numbers; a comparison
    with NaN is false. *)
Definition ge (a b : Date) : bool :=
  match a, b with
  | Some x, Some y => y <=? x
  | _, _ => false
  end.

Section LocalTime.
Variable LocalTZA : Z -> bool -> Z.

Definition LocalTime (t : Z) : Z := t + LocalTZA t true.
Definition UTC (t : Z) : Z := t - LocalTZA t false.

(** [d.setHours(hour, min, sec, ms)] *)
Definition setHours (d : Date) (hour min sec ms : Z) : Date :=
  match d with
  | None => None
  | Some tv =>
      let t := LocalTime tv in
      let date := MakeDate (Day t) (MakeTime hour min sec ms) in
      TimeClip (UTC date)
  end.

(** [d.getDate()] and [d.getMonth()]; [None] is NaN. *)
Definition getDate (d : Date) : option Z :=
  option_map (fun tv => DateFromTime (LocalTime tv)) d.

Definition getMonth (d : Date) : option Z :=
  option_map (fun tv => MonthFromTime (LocalTime tv)) d.

(** [d.setDate(dt)] *)
Definition setDate (d : Date) (dt : option Z) : Date :=
  match d, dt with
  | Some tv, Some dt =>
      let t := LocalTime tv in
      let newDate :=
        MakeDate (MakeDay (YearFromTime t) (MonthFromTime t) dt)
                 (TimeWithinDay t) in
      TimeClip (UTC newDate)
  | _, _ => None
  end.

(** [d.setMonth(m)] *)
Definition setMonth (d : Date) (m : option Z) : Date :=
  match d, m with
  | Some tv, Some m =>
      let t := LocalTime tv in
      let newDate :=
        MakeDate (MakeDay (YearFromTime t) m (DateFromTime t))
                 (TimeWithinDay t) in
      TimeClip (UTC newDate)
  | _, _ => None
  end.

End LocalTime.

End JSDate.


(** ** The array built-ins the dashboard calls *)

Module JSArray.

(** [a.length] *)
Definition len {A : Type} (a : list A) : Z := Z.of_nat (List.length a).

(** [a.slice(start, end)]: a negative index counts from the end of the
    array; both are then clamped to [0, length]. *)
Definition slice {A : Type} (a : list A) (start end_ : Z) : list A :=
  let n := len a in
  let k := if start <? 0 then Z.max (n + start) 0 else Z.min start n in
  let final := if end_ <? 0 then Z.max (n + end_) 0 else Z.min end_ n in
  let count := Z.max (final - k) 0 in
  firstn (Z.to_nat count) (skipn (Z.to_nat k) a).

(** [Math.ceil(a / b)] for an integer [a] and a positive integer [b] (the
    quotient of two integers below 2^53 rounds to the same ceiling). *)
Definition ceil_div (a b : Z) : Z := - ((- a) / b).

End JSArray.

(** ** The contact dashboard (ContactsDashboard) *)

Module Dashboard.
Import JSString.

Record Contact : Type := mkContact {
  id : string;
  name : string;
  whatsapp : string;
  bot_enabled : bool;
  created_at : string;
  updated_at : string
}.

Inductive DateFilter : Type := all | today | week | month.

Definition DateFilter_eqb (a b : DateFilter) : bool :=
  match a, b with
  | all, all | today, today | week, week | month, month => true
  | _, _ => false
  end.

(** The error object of a failed request to the store. *)
Record PostgrestError : Type := mkError {
  message : string
}.

(** The answer to [supabase.from("contacts").select("*")]. *)
Record SelectResponse : Type := mkSelectResponse {
  data : option (list Contact);
  error : option PostgrestError
}.

(** The answers of the store to the requests of one handler run. *)
Record Backend : Type := mkBackend {
  select_response : SelectResponse;
  delete_response : string -> option PostgrestError;
  update_response : bool -> string -> option PostgrestError
}.

(** What a handler does to the outside, in the order it does it. *)
Inductive Effect : Type :=
| select_all : Effect
| delete_eq_id : string -> Effect
| update_bot_enabled_eq_id : bool -> string -> Effect
| console_error : string -> PostgrestError -> Effect
| router_push : string -> Effect
| auth_signOut : Effect.

(** The component state (the [useState] cells).  [contacts_ref] stands for
    the identity of the array held in [contacts]: every [setContacts] stores
    a fresh array, and the dependency list of the filter effect compares
    arrays by identity. *)
Record ViewState : Type := mkViewState {
  contacts : list Contact;
  contacts_ref : nat;
  filteredContacts : list Contact;
  searchQuery : string;
  dateFilter : DateFilter;
  deleteModalOpen : bool;
  contactToDelete : option Contact;
  currentPage : Z
}.

Definition initialState : ViewState :=
  {| contacts := [];
     contacts_ref := 0%nat;
     filteredContacts := [];
     searchQuery := "";
     dateFilter := all;
     deleteModalOpen := false;
     contactToDelete := None;
     currentPage := 1 |}.

Definition itemsPerPage : Z := 10.

(** *** The state setters *)

Definition setContacts (v : list Contact) (st : ViewState) : ViewState :=
  {| contacts := v;
     contacts_ref := S (contacts_ref st);
     filteredContacts := filteredContacts st;
     searchQuery := searchQuery st;
     dateFilter := dateFilter st;
     deleteModalOpen := deleteModalOpen st;
     contactToDelete := contactToDelete st;
     currentPage := currentPage st |}.

Definition setFilteredContacts (v : list Contact) (st : ViewState)
  : ViewState :=
  {| contacts := contacts st;
     contacts_ref := contacts_ref st;
     filteredContacts := v;
     searchQuery := searchQuery st;
     dateFilter := dateFilter st;
     deleteModalOpen := deleteModalOpen st;
     contactToDelete := contactToDelete st;
     currentPage := currentPage st |}.

Definition setSearchQuery (v : string) (st : ViewState) : ViewState :=
  {| contacts := contacts st;
     contacts_ref := contacts_ref st;
     filteredContacts := filteredContacts st;
     searchQuery := v;
     dateFilter := dateFilter st;
     deleteModalOpen := deleteModalOpen st;
     contactToDelete := contactToDelete st;
     currentPage := currentPage st |}.

Definition setDateFilter (v : DateFilter) (st : ViewState) : ViewState :=
  {| contacts := contacts st;
     contacts_ref := contacts_ref st;
     filteredContacts := filteredContacts st;
     searchQuery := searchQuery st;
     dateFilter := v;
     deleteModalOpen := deleteModalOpen st;
     contactToDelete := contactToDelete st;
     currentPage := currentPage st |}.

Definition setDeleteModalOpen (v : bool) (st : ViewState) : ViewState :=
  {| contacts := contacts st;
     contacts_ref := contacts_ref st;
     filteredContacts := filteredContacts st;
     searchQuery := searchQuery st;
     dateFilter := dateFilter st;
     deleteModalOpen := v;
     contactToDelete := contactToDelete st;
     currentPage := currentPage st |}.

Definition setContactToDelete (v : option Contact) (st : ViewState)
  : ViewState :=
  {| contacts := contacts st;
     contacts_ref := contacts_ref st;
     filteredContacts := filteredContacts st;
     searchQuery := searchQuery st;
     dateFilter := dateFilter st;
     deleteModalOpen := deleteModalOpen st;
     contactToDelete := v;
     currentPage := currentPage st |}.

Definition setCurrentPage (v : Z) (st : ViewState) : ViewState :=
  {| contacts := contacts st;
     contacts_ref := contacts_ref st;
     filteredContacts := filteredContacts st;
     searchQuery := searchQuery st;
     dateFilter := dateFilter st;
     deleteModalOpen := deleteModalOpen st;
     contactToDelete := contactToDelete st;
     currentPage := v |}.

(** *** Handlers: state passing with a trace of effects *)

Definition Handler (A : Type) : Type :=
  ViewState * list Effect -> A * (ViewState * list Effect).

Definition ret {A : Type} (a : A) : Handler A := fun w => (a, w).

Definition bind {A B : Type} (m : Handler A) (k : A -> Handler B)
  : Handler B :=
  fun w => let '(a, w') := m w in k a w'.

Notation "x <- m ;; k" := (bind m (fun x => k))
  (at level 61, m at next level, right associativity).
Notation "m ;; k" := (bind m (fun _ => k))
  (at level 61, right associativity).

Definition get : Handler ViewState := fun w => (fst w, w).

Definition set (f : ViewState -> ViewState) : Handler unit :=
  fun w => (tt, (f (fst w), snd w)).

Definition emit (e : Effect) : Handler unit :=
  fun w => (tt, (fst w, (snd w ++ [e])%list)).

(** Run a handler from a state, with an empty trace. *)
Definition run (h : Handler unit) (st : ViewState)
  : ViewState * list Effect :=
  snd (h (st, [])).

(** [data || []] *)
Definition or_empty (d : option (list Contact)) : list Contact :=
  match d with
  | Some l => l
  | None => []
  end.

Definition fetchContacts (b : Backend) : Handler unit :=
  emit select_all ;;
  match error (select_response b) with
  | Some e => emit (console_error "Error fetching contacts:" e)
  | None => set (setContacts (or_empty (data (select_response b))))
  end.

Definition handleDeleteClick (contact : Contact) : Handler unit :=
  set (setContactToDelete (Some contact)) ;;
  set (setDeleteModalOpen true).

Definition handleConfirmDelete (b : Backend) : Handler unit :=
  st <- get ;;
  match contactToDelete st with
  | Some c =>
      emit (delete_eq_id (id c)) ;;
      match delete_response b (id c) with
      | Some e => emit (console_error "Error deleting contact:" e)
      | None =>
          fetchContacts b ;;
          set (setDeleteModalOpen false) ;;
          set (setContactToDelete None)
      end
  | None => ret tt
  end.

Definition handleBotToggle (b : Backend) (contact : Contact) (checked : bool)
  : Handler unit :=
  emit (update_bot_enabled_eq_id checked (id contact)) ;;
  match update_response b checked (id contact) with
  | Some e => emit (console_error "Error updating contact:" e)
  | None => fetchContacts b
  end.

Definition goToPage (page : Z) : Handler unit :=
  set (setCurrentPage page).

Definition handleLogout : Handler unit :=
  emit auth_signOut ;;
  emit (router_push "/login").

(** The effect on [user, router]. *)
Definition userEffect (b : Backend) (user : option User) : Handler unit :=
  if negb (is_some user) then emit (router_push "/login")
  else fetchContacts b.

(** *** Pagination values, computed at each render *)

Definition totalPages (st : ViewState) : Z :=
  JSArray.ceil_div (JSArray.len (filteredContacts st)) itemsPerPage.

Definition startIndex (st : ViewState) : Z :=
  (currentPage st - 1) * itemsPerPage.

Definition endIndex (st : ViewState) : Z :=
  startIndex st + itemsPerPage.

Definition currentContacts (st : ViewState) : list Contact :=
  JSArray.slice (filteredContacts st) (startIndex st) (endIndex st).

(** *** applyFilters *)

Section Environment.

(** The time zone of the browser, and the reading of a timestamp string by
    [new Date(string)] ([None] when the string is not a date). *)
Variable LocalTZA : Z -> bool -> Z.
Variable Date_parse : string -> option Z.

(** The predicate of the search filter, on the lower-cased query. *)
Definition search_filter (query : string) (contact : Contact) : bool :=
  includes (toLowerCase (name contact)) query
  || includes (whatsapp contact) query.

(** The three Dates that applyFilters builds from the clock reading [now]
    ([new Date()]). *)
Definition startOfToday (now : Z) : JSDate.Date :=
  JSDate.setHours LocalTZA (Some now) 0 0 0 0.

Definition oneWeekAgo (now : Z) : JSDate.Date :=
  let d := startOfToday now in
  JSDate.setDate LocalTZA d
    (option_map (fun x => x - 7) (JSDate.getDate LocalTZA d)).

Definition oneMonthAgo (now : Z) : JSDate.Date :=
  let d := startOfToday now in
  JSDate.setMonth LocalTZA d
    (option_map (fun x => x - 1) (JSDate.getMonth LocalTZA d)).

(** The filtered list that applyFilters hands to [setFilteredContacts]. *)
Definition applyFilters_result (now : Z) (contacts : list Contact)
  (searchQuery : string) (dateFilter : DateFilter) : list Contact :=
  let result := contacts in
  let result :=
    if truthy searchQuery then
      let query := toLowerCase searchQuery in
      filter (search_filter query) result
    else result in
  match dateFilter with
  | today =>
      filter (fun contact =>
                JSDate.ge (Date_parse (updated_at contact))
                          (startOfToday now)) result
  | week =>
      filter (fun contact =>
                JSDate.ge (Date_parse (updated_at contact))
                          (oneWeekAgo now)) result
  | month =>
      filter (fun contact =>
                JSDate.ge (Date_parse (updated_at contact))
                          (oneMonthAgo now)) result
  | all => result
  end.

Definition applyFilters (now : Z) (st : ViewState) : ViewState :=
  let result :=
    applyFilters_result now (contacts st) (searchQuery st) (dateFilter st) in
  setCurrentPage 1 (setFilteredContacts result st).

(** The dependency list [contacts, searchQuery, dateFilter] of the effect
    that calls applyFilters, compared between two renders. *)
Definition deps_changed (old new : ViewState) : bool :=
  negb (Nat.eqb (contacts_ref old) (contacts_ref new)
        && String.eqb (searchQuery old) (searchQuery new)
        && DateFilter_eqb (dateFilter old) (dateFilter new)).

Definition filterEffect (now : Z) (old new : ViewState) : ViewState :=
  if deps_changed old new then applyFilters now new else new.

(** *** Events *)

(** What can happen to the mounted component: the gestures of the page and,
    as [call_goToPage], a direct call of goToPage. *)
Inductive Event : Type :=
| change_search : string -> Event
| select_filter : DateFilter -> Event
| click_refresh : Event
| click_delete : Contact -> Event
| click_cancel : Event
| click_confirm : Event
| toggle_bot : Contact -> bool -> Event
| click_previous : Event
| click_page : Z -> Event
| click_next : Event
| click_logout : Event
| user_changed : option User -> Event
| call_goToPage : Z -> Event.

Definition handle (b : Backend) (ev : Event) : Handler unit :=
  match ev with
  | change_search v => set (setSearchQuery v)
  | select_filter f => set (setDateFilter f)
  | click_refresh => fetchContacts b
  | click_delete c => handleDeleteClick c
  | click_cancel => set (setDeleteModalOpen false)
  | click_confirm => handleConfirmDelete b
  | toggle_bot c checked => handleBotToggle b c checked
  | click_previous =>
      st <- get ;;
      (* disabled={currentPage === 1} *)
      if currentPage st =? 1 then ret tt
      else goToPage (currentPage st - 1)
  | click_page index =>
      st <- get ;;
      (* one button per index of [...Array(totalPages)] *)
      if (0 <=? index) && (index <? totalPages st) then goToPage (index + 1)
      else ret tt
  | click_next =>
      st <- get ;;
      (* disabled={currentPage === totalPages} *)
      if currentPage st =? totalPages st then ret tt
      else goToPage (currentPage st + 1)
  | click_logout => handleLogout
  | user_changed user => userEffect b user
  | call_goToPage page => goToPage page
  end.

(** One event: the handler runs, the component renders, and the filter
    effect runs when one of its dependencies changed. *)
Definition step (now : Z) (b : Backend) (ev : Event) (st : ViewState)
  : ViewState * list Effect :=
  let '(st', trace) := run (handle b ev) st in
  (filterEffect now st st', trace).

Definition is_gesture (ev : Event) : bool :=
  match ev with
  | call_goToPage _ => false
  | _ => true
  end.

(** The states the component reaches from its initial state. *)
Inductive reachable : ViewState -> Prop :=
| reachable_init : reachable initialState
| reachable_step : forall now b ev st,
    reachable st -> reachable (fst (step now b ev st)).

(** The states it reaches through the gestures of the page alone. *)
Inductive reachable_by_gestures : ViewState -> Prop :=
| gestures_init : reachable_by_gestures initialState
| gestures_step : forall now b ev st,
    reachable_by_gestures st -> is_gesture ev = true ->
    reachable_by_gestures (fst (step now b ev st)).

End Environment.

End Dashboard.

(** ** The session store (supabase-provider.tsx) *)

Module SessionStore.

(** The value the provider hands to its consumers ([useSupabase()]). *)
Record ContextValue : Type := mkContextValue {
  user : option User;
  session : option Session
}.

(** [useState<User | null>(null)] and [useState<Session | null>(null)]. *)
Definition initialValue : ContextValue :=
  {| user := None; session := None |}.

(** One notification of the auth provider: the name of the event and the
    session it carries ([None] for [null]). *)
Definition AuthStateChange : Type := (string * option Session)%type.

(** The callback given to [supabase.auth.onAuthStateChange]. *)
Definition onAuthStateChange (change : AuthStateChange)
  (v : ContextValue) : ContextValue :=
  match snd change with
  | Some s => {| user := Some (session_user s); session := Some s |}
  | None => {| user := None; session := None |}
  end.

(** The value after a sequence of notifications, the earliest first. *)
Definition after (changes : list AuthStateChange) : ContextValue :=
  fold_left (fun v change => onAuthStateChange change v) changes initialValue.

End SessionStore.

(** ** What the page shows of the pagination *)

Module DashboardView.
Import Dashboard.

(** "Mostrando {startIndex + 1}-{Math.min(endIndex, filteredContacts.length)}
    de {filteredContacts.length} contatos" *)
Definition showingFrom (st : ViewState) : Z := startIndex st + 1.

Definition showingTo (st : ViewState) : Z :=
  Z.min (endIndex st) (JSArray.len (filteredContacts st)).

Definition showingOf (st : ViewState) : Z :=
  JSArray.len (filteredContacts st).

(** The indices of [[...Array(totalPages)]], one page button for each;
    the button of [index] calls [goToPage(index + 1)]. *)
Definition pageButtons (st : ViewState) : list Z :=
  map Z.of_nat (seq 0 (Z.to_nat (totalPages st))).

(** [disabled={currentPage === 1}] and
    [disabled={currentPage === totalPages}]. *)
Definition previousDisabled (st : ViewState) : bool :=
  currentPage st =? 1.

Definition nextDisabled (st : ViewState) : bool :=
  currentPage st =? totalPages st.

End DashboardView.

(** ** Predicates and sample data used to state the properties *)

Module GuardWords.
Import Middleware.

(** The two conditions of the decision table, as propositions. *)
Definition protected_without_session (session : option Session)
  (req : NextRequest) : Prop :=
  session = None /\ exists rest, pathname req = "/dashboard" ++ rest.

Definition entry_with_session (session : option Session)
  (req : NextRequest) : Prop :=
  session <> None /\ (pathname req = "/login" \/ pathname req = "/").

Definition someSession : Session :=
  mkSession (mkUser "u1" "ana@example.com" "5511987654321") "token".

End GuardWords.

Module PhoneWords.
Import JSString.

(** The digits of the raw string, without a leading country code "55". *)
Definition local_digits (number : string) : string :=
  let digits := remove_non_digits number in
  if startsWith digits "55" then drop 2 digits else digits.

(** The next two digits, and what remains after them. *)
Definition area_code (number : string) : string :=
  take 2 (local_digits number).

Definition subscriber (number : string) : string :=
  drop 2 (local_digits number).

Definition str1 (a : ascii) : string := String a "".

Definition str4 (a b c d : ascii) : string :=
  String a (String b (String c (String d ""))).

(** [out] is "(AA) D DDDD-DDDD" for the area code [aa] and the nine digits
    of [sub]. *)
Definition mobile_pattern (aa sub out : string) : Prop :=
  String.length aa = 2%nat /\ all_digits aa = true /\ all_digits sub = true /\
  exists d1 d2 d3 d4 d5 d6 d7 d8 d9 : ascii,
    sub = str1 d1 ++ str4 d2 d3 d4 d5 ++ str4 d6 d7 d8 d9 /\
    out = "(" ++ aa ++ ") " ++ str1 d1 ++ " " ++ str4 d2 d3 d4 d5
          ++ "-" ++ str4 d6 d7 d8 d9.

(** [out] is "(AA) DDDD-DDDD" for the area code [aa] and the eight digits
    of [sub]. *)
Definition landline_pattern (aa sub out : string) : Prop :=
  String.length aa = 2%nat /\ all_digits aa = true /\ all_digits sub = true /\
  exists d1 d2 d3 d4 d5 d6 d7 d8 : ascii,
    sub = str4 d1 d2 d3 d4 ++ str4 d5 d6 d7 d8 /\
    out = "(" ++ aa ++ ") " ++ str4 d1 d2 d3 d4 ++ "-" ++ str4 d5 d6 d7 d8.

End PhoneWords.

Module FilterWords.
Import JSString Dashboard.

(** [l1] is [l2] with some elements removed, the others in their order. *)
Inductive Subseq {A : Type} : list A -> list A -> Prop :=
| Subseq_nil : Subseq [] []
| Subseq_keep : forall x l1 l2, Subseq l1 l2 -> Subseq (x :: l1) (x :: l2)
| Subseq_skip : forall x l1 l2, Subseq l1 l2 -> Subseq l1 (x :: l2).

(** [q] occurs in [s]. *)
Definition substring_of (q s : string) : Prop :=
  exists pre post, s = pre ++ q ++ post.

(** [q] occurs in [s] when the case of letters is ignored. *)
Definition ci_substring_of (q s : string) : Prop :=
  substring_of (toLowerCase q) (toLowerCase s).

(** The search predicate of the description: a case-insensitive substring
    of the name or of the phone number. *)
Definition search_predicate (search : string) (c : Contact) : Prop :=
  ci_substring_of search (name c) \/ ci_substring_of search (whatsapp c).

(** The same, with the phone number compared as it is stored. *)
Definition search_predicate_stored_phone (search : string) (c : Contact)
  : Prop :=
  ci_substring_of search (name c)
  \/ substring_of (toLowerCase search) (whatsapp c).

(** A contact passes the search filter of a non-empty search text. *)
Definition passes_search_filter (search : string) (c : Contact) : Prop :=
  search_filter (toLowerCase search) c = true.

Section Environment.
Variable LocalTZA : Z -> bool -> Z.
Variable Date_parse : string -> option Z.

(** [updated_at] is a date, [bound] is a valid Date, and the first is not
    before the second. *)
Definition on_or_after (bound : JSDate.Date) (c : Contact) : Prop :=
  exists b t,
    bound = Some b /\ Date_parse (updated_at c) = Some t /\ b <= t.

(** The date-range predicate of each setting of the date filter. *)
Definition date_predicate (f : DateFilter) (now : Z) (c : Contact) : Prop :=
  match f with
  | all => True
  | today => on_or_after (startOfToday LocalTZA now) c
  | week => on_or_after (oneWeekAgo LocalTZA now) c
  | month => on_or_after (oneMonthAgo LocalTZA now) c
  end.

End Environment.

End FilterWords.

(** Sample data: a time zone three hours behind UTC, three timestamps, and
    a few contacts. *)
Module Samples.
Import Dashboard.

Definition tz_minus_3h : Z -> bool -> Z := fun _ _ => -10800000.

Definition parse_sample (s : string) : option Z :=
  if String.eqb s "2024-03-31T09:00:00Z" then Some 1711875600000
  else if String.eqb s "2024-03-27T12:00:00Z" then Some 1711540800000
  else if String.eqb s "2024-03-10T12:00:00Z" then Some 1710072000000
  else if String.eqb s "2023-11-05T08:30:00Z" then Some 1699173000000
  else None.

(** 2024-03-31T15:00:00Z *)
Definition sample_now : Z := 1711897200000.

Definition ana : Contact :=
  mkContact "1" "Ana Souza" "5511987654321" true
            "2023-11-05T08:30:00Z" "2024-03-31T09:00:00Z".

Definition bruno : Contact :=
  mkContact "2" "Bruno Lima" "551132654321" false
            "2023-11-05T08:30:00Z" "2024-03-27T12:00:00Z".

Definition carla : Contact :=
  mkContact "3" "Carla Antunes" "5521999990000" true
            "2023-11-05T08:30:00Z" "2024-03-10T12:00:00Z".

Definition dora : Contact :=
  mkContact "4" "Dora" "5511912345678 (Casa)" false
            "2023-11-05T08:30:00Z" "2023-11-05T08:30:00Z".

Definition eva : Contact :=
  mkContact "5" "Eva" "5531977776666" false
            "2023-11-05T08:30:00Z" "not a date".

Definition sample_contacts : list Contact := [ana; bruno; carla; dora; eva].

(** A state that shows the second page of fifteen contacts. *)
Definition second_page : ViewState :=
  {| contacts := sample_contacts ++ sample_contacts ++ sample_contacts;
     contacts_ref := 1%nat;
     filteredContacts := sample_contacts ++ sample_contacts ++ sample_contacts;
     searchQuery := "";
     dateFilter := all;
     deleteModalOpen := false;
     contactToDelete := None;
     currentPage := 2 |}.

(** A state in which the deletion of a contact awaits confirmation. *)
Definition confirming_delete : ViewState :=
  {| contacts := sample_contacts;
     contacts_ref := 1%nat;
     filteredContacts := sample_contacts;
     searchQuery := "";
     dateFilter := all;
     deleteModalOpen := true;
     contactToDelete := Some bruno;
     currentPage := 1 |}.

Definition some_error : PostgrestError := mkError "connection refused".

(** The state after the five sample contacts were fetched. *)
Definition five_contacts : ViewState :=
  {| contacts := sample_contacts;
     contacts_ref := 1%nat;
     filteredContacts := sample_contacts;
     searchQuery := "";
     dateFilter := all;
     deleteModalOpen := false;
     contactToDelete := None;
     currentPage := 1 |}.

(** A store whose every request fails. *)
Definition failing_backend : Backend :=
  {| select_response := mkSelectResponse None (Some some_error);
     delete_response := fun _ => Some some_error;
     update_response := fun _ _ => Some some_error |}.

(** A store that accepts every request and then holds [rows]. *)
Definition backend_with (rows : list Contact) : Backend :=
  {| select_response := mkSelectResponse (Some rows) None;
     delete_response := fun _ => None;
     update_response := fun _ _ => None |}.

End Samples.

Module DateWords.

(** Every offset of the time zone is within a day. *)
Definition tz_bounded (LocalTZA : Z -> bool -> Z) : Prop :=
  forall t b, Z.abs (LocalTZA t b) <= JSDate.msPerDay.

(** The clock is not within 36 days of the earliest time value that a Date
    can hold (about 271821 BC). *)
Definition clock_in_range (now : Z) : Prop :=
  - JSDate.maxTime + 36 * JSDate.msPerDay <= now.

(** Whenever [b] is a valid Date, [a] is a valid Date that is not later. *)
Definition not_later (a b : JSDate.Date) : Prop :=
  forall t, b = Some t -> exists s, a = Some s /\ s <= t.

End DateWords.

Module PageWords.

(** The elements of [l] whose index [i] (counted from [first]) satisfies
    [lo <= i < hi]. *)
Fixpoint restrict_from {A : Type} (first : Z) (l : list A) (lo hi : Z)
  : list A :=
  match l with
  | [] => []
  | x :: l' =>
      if (lo <=? first) && (first <? hi)
      then x :: restrict_from (first + 1) l' lo hi
      else restrict_from (first + 1) l' lo hi
  end.

(** [l] restricted to the indices of [lo, hi). *)
Definition restricted_to {A : Type} (l : list A) (lo hi : Z) : list A :=
  restrict_from 0 l lo hi.

(** [p] is the quotient [n / d] rounded up. *)
Definition is_ceiling (n d p : Z) : Prop :=
  (p - 1) * d < n <= p * d.

(** The page count of the description: the ceiling, but at least 1. *)
Definition page_count_min_1 (n size pages : Z) : Prop :=
  exists p, is_ceiling n size p /\ pages = Z.max 1 p.

(** The range of the description for the current page. *)
Definition page_in_range (st : Dashboard.ViewState) : Prop :=
  1 <= Dashboard.currentPage st <= Z.max 1 (Dashboard.totalPages st).

(** What the page buttons maintain: the current page is at least 1, and it
    is at most the page count when the filtered view is not empty. *)
Definition page_within_pages (st : Dashboard.ViewState) : Prop :=
  1 <= Dashboard.currentPage st
  /\ (Dashboard.filteredContacts st <> [] ->
      Dashboard.currentPage st <= Dashboard.totalPages st).

(** One of the inputs of the filtered view differs between two states. *)
Definition inputs_changed (old new : Dashboard.ViewState) : Prop :=
  Dashboard.contacts_ref old <> Dashboard.contacts_ref new
  \/ Dashboard.searchQuery old <> Dashboard.searchQuery new
  \/ Dashboard.dateFilter old <> Dashboard.dateFilter new.

End PageWords.

Module HandlerWords.
Import Dashboard.

(** The requests to the store among the effects of a handler. *)
Definition is_request (e : Effect) : bool :=
  match e with
  | select_all | delete_eq_id _ | update_bot_enabled_eq_id _ _ => true
  | console_error _ _ | router_push _ | auth_signOut => false
  end.

Definition requests (trace : list Effect) : list Effect :=
  filter is_request trace.

End HandlerWords.

Module StoreWords.
Import SessionStore.

(** The session carried by the latest notification, if there was one. *)
Definition latest_session (changes : list AuthStateChange)
  : option Session :=
  match rev changes with
  | [] => None
  | change :: _ => snd change
  end.

End StoreWords.

Module ZoneWords.



End ZoneWords.

Module ViewWords.
Import Dashboard.

(** While the confirmation modal is open, a contact is selected. *)
Definition modal_has_contact (st : ViewState) : Prop :=
  deleteModalOpen st = true -> contactToDelete st <> None.

End ViewWords.

(* ===================================================================== *)
(** * Part II: properties                                                  *)
(* ===================================================================== *)

(** ** Strings *)

Module StringFacts.
Import JSString.

Lemma ascii_eqb_true (c d : ascii) : Ascii.eqb c d = true <-> c = d.
Proof. apply Ascii.eqb_eq. Qed.

Lemma startsWith_iff (s p : string) :
  startsWith s p = true <-> exists rest, s = p ++ rest.
Proof.
  revert s; induction p as [|c p IH]; intros s; simpl.
  - split; [intros _; now exists s | reflexivity].
  - destruct s as [|d s].
    + split; [discriminate | intros [rest H]; discriminate].
    + rewrite andb_true_iff, ascii_eqb_true, IH. split.
      * intros [-> [rest ->]]. now exists rest.
      * intros [rest H]. injection H as -> ->.
        split; [reflexivity | now exists rest].
Qed.

Lemma includes_iff (s q : string) :
  includes s q = true <-> exists pre post, s = pre ++ q ++ post.
Proof.
  induction s as [|c s IH]; simpl.
  - rewrite orb_false_r, startsWith_iff. split.
    + intros [rest H]. now exists "", rest.
    + intros [pre [post H]]. destruct pre; simpl in H.
      * now exists post.
      * discriminate.
  - rewrite orb_true_iff, IH.
    change (startsWith (String c s) q = true \/
            (exists pre post, s = pre ++ q ++ post) <->
            (exists pre post, String c s = pre ++ q ++ post)).
    rewrite startsWith_iff. split.
    + intros [[rest H] | [pre [post H]]].
      * now exists "", rest.
      * exists (String c pre), post. simpl. now f_equal.
    + intros [pre [post H]]. destruct pre as [|d pre]; simpl in H.
      * left. now exists post.
      * right. injection H as _ H. now exists pre, post.
Qed.

Lemma toLowerCase_app (s t : string) :
  toLowerCase (s ++ t) = toLowerCase s ++ toLowerCase t.
Proof. induction s; simpl; [reflexivity | now f_equal]. Qed.

Lemma lower_char_idem (c : ascii) : lower_char (lower_char c) = lower_char c.
Proof. destruct c as [[] [] [] [] [] [] [] []]; reflexivity. Qed.

Lemma toLowerCase_idem (s : string) :
  toLowerCase (toLowerCase s) = toLowerCase s.
Proof.
  induction s; simpl; [reflexivity | now rewrite lower_char_idem, IHs].
Qed.

Lemma lower_char_digit (c : ascii) : is_digit c = true -> lower_char c = c.
Proof.
  destruct c as [[] [] [] [] [] [] [] []]; simpl; intros H;
    try discriminate; reflexivity.
Qed.

Lemma toLowerCase_digits (s : string) :
  all_digits s = true -> toLowerCase s = s.
Proof.
  induction s as [|c s IH]; simpl; [reflexivity|].
  rewrite andb_true_iff. intros [Hc Hs]. now rewrite lower_char_digit, IH.
Qed.

Lemma truthy_false_iff (s : string) : truthy s = false <-> s = "".
Proof. destruct s; simpl; split; congruence. Qed.

Lemma truthy_true_iff (s : string) : truthy s = true <-> s <> "".
Proof. destruct s; simpl; split; congruence. Qed.

Lemma take_all (n : nat) (s : string) :
  (String.length s <= n)%nat -> take n s = s.
Proof.
  revert n; induction s as [|c s IH]; intros [|n] H; simpl in *;
    try reflexivity; try lia.
  f_equal. apply IH. lia.
Qed.

Lemma drop_all (n : nat) (s : string) :
  (String.length s <= n)%nat -> drop n s = "".
Proof.
  revert n; induction s as [|c s IH]; intros [|n] H; simpl in *;
    try reflexivity; try lia.
  apply IH. lia.
Qed.

Lemma take_min (n : nat) (s : string) :
  take (Nat.min n (String.length s)) s = take n s.
Proof.
  revert n; induction s as [|c s IH]; intros [|n]; simpl; try reflexivity.
  now rewrite IH.
Qed.

Lemma drop_min (n : nat) (s : string) :
  drop (Nat.min n (String.length s)) s = drop n s.
Proof.
  revert n; induction s as [|c s IH]; intros [|n]; simpl; try reflexivity.
  now rewrite IH.
Qed.

Lemma length_drop (n : nat) (s : string) :
  String.length (drop n s) = (String.length s - n)%nat.
Proof.
  revert n; induction s as [|c s IH]; intros [|n]; simpl; try reflexivity.
  apply IH.
Qed.

Lemma length_take (n : nat) (s : string) :
  String.length (take n s) = Nat.min n (String.length s).
Proof.
  revert n; induction s as [|c s IH]; intros [|n]; simpl; try reflexivity.
  now rewrite IH.
Qed.

Lemma take_drop (n : nat) (s : string) : take n s ++ drop n s = s.
Proof.
  revert n; induction s as [|c s IH]; intros [|n]; simpl; try reflexivity.
  now rewrite IH.
Qed.

(** [substring] on indices that are already in order and not negative. *)
Lemma substring_take_drop (s : string) (a b : nat) :
  (a <= b)%nat ->
  substring s (Z.of_nat a) (Z.of_nat b) = take (b - a) (drop a s).
Proof.
  intros Hab. unfold substring, len.
  set (n := String.length s).
  replace (Z.min (Z.max (Z.of_nat a) 0) (Z.of_nat n))
    with (Z.of_nat (Nat.min a n)) by lia.
  replace (Z.min (Z.max (Z.of_nat b) 0) (Z.of_nat n))
    with (Z.of_nat (Nat.min b n)) by lia.
  replace (Z.min (Z.of_nat (Nat.min a n)) (Z.of_nat (Nat.min b n)))
    with (Z.of_nat (Nat.min a n)) by lia.
  replace (Z.max (Z.of_nat (Nat.min a n)) (Z.of_nat (Nat.min b n)))
    with (Z.of_nat (Nat.min b n)) by lia.
  rewrite <- Nat2Z.inj_sub by lia. rewrite !Nat2Z.id.
  unfold n. rewrite drop_min.
  rewrite <- (take_min (b - a)), <- (take_min (Nat.min b _ - Nat.min a _)).
  rewrite length_drop. f_equal. lia.
Qed.

Lemma substring_from_drop (s : string) (a : nat) :
  substring_from s (Z.of_nat a) = drop a s.
Proof.
  unfold substring_from, substring, len.
  set (n := String.length s).
  replace (Z.min (Z.max (Z.of_nat a) 0) (Z.of_nat n))
    with (Z.of_nat (Nat.min a n)) by lia.
  replace (Z.min (Z.max (Z.of_nat n) 0) (Z.of_nat n)) with (Z.of_nat n) by lia.
  replace (Z.min (Z.of_nat (Nat.min a n)) (Z.of_nat n))
    with (Z.of_nat (Nat.min a n)) by lia.
  replace (Z.max (Z.of_nat (Nat.min a n)) (Z.of_nat n))
    with (Z.of_nat n) by lia.
  rewrite <- Nat2Z.inj_sub by lia. rewrite !Nat2Z.id.
  unfold n. rewrite drop_min. apply take_all. rewrite length_drop. lia.
Qed.

Lemma all_digits_remove (s : string) :
  all_digits (remove_non_digits s) = true.
Proof.
  induction s as [|c s IH]; simpl; [reflexivity|].
  destruct (is_digit c) eqn:E; simpl; [now rewrite E | exact IH].
Qed.

Lemma all_digits_drop (n : nat) (s : string) :
  all_digits s = true -> all_digits (drop n s) = true.
Proof.
  revert n; induction s as [|c s IH]; intros [|n]; simpl; try tauto.
  rewrite andb_true_iff. intros [_ H]. now apply IH.
Qed.

Lemma all_digits_take (n : nat) (s : string) :
  all_digits s = true -> all_digits (take n s) = true.
Proof.
  revert n; induction s as [|c s IH]; intros [|n]; simpl; try tauto.
  rewrite !andb_true_iff. intros [Hc H]. split; [exact Hc | now apply IH].
Qed.

End StringFacts.

(** ** The calendar arithmetic of Date *)

Module DateFacts.
Import JSDate.
Lemma DayFromYear_succ (y : Z) :
  DayFromYear (y + 1) = DayFromYear y + DaysInYear y.
Proof.
  unfold DayFromYear, DaysInYear.
  destruct (Z.eqb_spec (y mod 4) 0) as [E4|E4];
  destruct (Z.eqb_spec (y mod 100) 0) as [E100|E100];
  destruct (Z.eqb_spec (y mod 400) 0) as [E400|E400]; simpl negb; cbv iota;
  Z.div_mod_to_equations; lia.
Qed.

Lemma LeapDays_range (y : Z) : 0 <= LeapDays y <= 1.
Proof.
  unfold LeapDays, DaysInYear.
  destruct (negb _); [lia|]. destruct (negb _); [lia|].
  destruct (negb _); lia.
Qed.

Lemma YearFromTime_spec (t : Z) :
  DayFromYear (YearFromTime t) <= Day t < DayFromYear (YearFromTime t + 1).
Proof.
  unfold YearFromTime.
  set (d := Day t). clearbody d.
  set (y := 1970 + 400 * d / 146097).
  destruct (Z.ltb_spec d (DayFromYear y)) as [H1|H1].
  - replace (y - 1 + 1) with y by lia. split; [|exact H1].
    unfold DayFromYear in *. unfold y in *. Z.div_mod_to_equations. lia.
  - destruct (Z.leb_spec (DayFromYear (y + 1)) d) as [H2|H2].
    + split; [exact H2|].
      unfold DayFromYear in *. unfold y in *. Z.div_mod_to_equations. lia.
    + split; assumption.
Qed.

Lemma DayFromYear_mono (y y' : Z) : y <= y' -> DayFromYear y <= DayFromYear y'.
Proof.
  intros H. unfold DayFromYear. Z.div_mod_to_equations. lia.
Qed.

(** [YearFromTime t] is the largest year that starts at or before [t]. *)
Lemma YearFromTime_largest (t y : Z) :
  TimeFromYear y <= t -> y <= YearFromTime t.
Proof.
  intros H.
  assert (Hd : DayFromYear y <= Day t).
  { unfold TimeFromYear, Day, msPerDay in *. Z.div_mod_to_equations. lia. }
  destruct (YearFromTime_spec t) as [_ Hlt].
  destruct (Z.le_gt_cases y (YearFromTime t)) as [|Hgt]; [assumption|].
  pose proof (DayFromYear_mono (YearFromTime t + 1) y ltac:(lia)). lia.
Qed.

Lemma TimeFromYear_YearFromTime (t : Z) : TimeFromYear (YearFromTime t) <= t.
Proof.
  destruct (YearFromTime_spec t) as [H _].
  unfold TimeFromYear, Day, msPerDay in *. Z.div_mod_to_equations. lia.
Qed.

Lemma DayWithinYear_range (t : Z) :
  0 <= DayWithinYear t < 365 + InLeapYear t.
Proof.
  pose proof (YearFromTime_spec t) as H.
  rewrite DayFromYear_succ in H.
  unfold DayWithinYear, InLeapYear, LeapDays. lia.
Qed.

Lemma MonthFromTime_range (t : Z) : 0 <= MonthFromTime t <= 11.
Proof.
  unfold MonthFromTime.
  repeat match goal with
         | |- context [if ?c then _ else _] => destruct c
         end; lia.
Qed.

Lemma DateFromTime_range (t : Z) : 1 <= DateFromTime t <= 31.
Proof.
  pose proof (DayWithinYear_range t) as Hd.
  pose proof (LeapDays_range (YearFromTime t)) as Hl.
  unfold DateFromTime, MonthFromTime. fold (InLeapYear t) in Hl.
  repeat match goal with
         | |- context [if ?a <? ?b then _ else _] =>
             destruct (Z.ltb_spec a b); cbv iota
         end; cbn [MonthStart]; lia.
Qed.

Lemma MakeDate_Day (t : Z) : MakeDate (Day t) (TimeWithinDay t) = t.
Proof.
  unfold MakeDate, Day, TimeWithinDay, msPerDay.
  Z.div_mod_to_equations. lia.
Qed.

(** Within the month of [t], [MakeDay] moves by whole days. *)
Lemma MakeDay_same_month (t dt : Z) :
  MakeDay (YearFromTime t) (MonthFromTime t) dt
  = Day t + (dt - DateFromTime t).
Proof.
  pose proof (MonthFromTime_range t) as Hm.
  unfold MakeDay.
  rewrite Z.div_small, Z.mod_small by lia.
  rewrite Z.add_0_r.
  unfold DateFromTime, DayWithinYear, InLeapYear. lia.
Qed.

(** The same date of the previous month is the length of that month
    earlier, whether or not the previous month has such a date. *)
Lemma MakeDay_previous_month (t : Z) :
  28 <= Day t - MakeDay (YearFromTime t) (MonthFromTime t - 1) (DateFromTime t)
     <= 31.
Proof.
  pose proof (MonthFromTime_range t) as Hm.
  pose proof (LeapDays_range (YearFromTime t)) as Hl.
  pose proof (LeapDays_range (YearFromTime t - 1)) as Hl'.
  pose proof (DayFromYear_succ (YearFromTime t - 1)) as Hs.
  replace (YearFromTime t - 1 + 1) with (YearFromTime t) in Hs by lia.
  unfold MakeDay, DateFromTime, DayWithinYear, InLeapYear.
  set (m := MonthFromTime t) in *. set (y := YearFromTime t) in *.
  destruct (Z.eq_dec m 0) as [E|E].
  - rewrite E. change ((0 - 1) / 12) with (-1).
    change ((0 - 1) mod 12) with 11.
    replace (y + -1) with (y - 1) by lia.
    cbn [MonthStart]. unfold LeapDays in *. lia.
  - rewrite Z.div_small, Z.mod_small, Z.add_0_r by lia.
    assert (Hcases : m = 1 \/ m = 2 \/ m = 3 \/ m = 4 \/ m = 5 \/ m = 6 \/
                     m = 7 \/ m = 8 \/ m = 9 \/ m = 10 \/ m = 11) by lia.
    destruct Hcases as [H|[H|[H|[H|[H|[H|[H|[H|[H|[H|H]]]]]]]]]];
      rewrite H;
      match goal with
      | |- context [MonthStart (?a - 1)] =>
          let v := eval cbv in (a - 1) in change (a - 1) with v
      end;
      cbn [MonthStart]; lia.
Qed.
Lemma YearFromTime_unique (t y : Z) :
  DayFromYear y <= Day t < DayFromYear (y + 1) -> YearFromTime t = y.
Proof.
  intros [Hlo Hhi]. destruct (YearFromTime_spec t) as [Slo Shi].
  destruct (Z.lt_trichotomy (YearFromTime t) y) as [H|[H|H]].
  - pose proof (DayFromYear_mono (YearFromTime t + 1) y ltac:(lia)). lia.
  - exact H.
  - pose proof (DayFromYear_mono (y + 1) (YearFromTime t) ltac:(lia)). lia.
Qed.

(** [MakeDay year month 1] is the day number of the first day of the month:
    the year, month and date of that day are the ones asked for. *)
Lemma MakeDay_first_of_month (year month : Z) :
  0 <= month <= 11 ->
  let t := MakeDate (MakeDay year month 1) 0 in
  YearFromTime t = year /\ MonthFromTime t = month /\ DateFromTime t = 1.
Proof.
  intros Hm t.
  pose proof (LeapDays_range year) as Hl.
  pose proof (DayFromYear_succ year) as Hs.
  assert (Hday : Day t = DayFromYear year + MonthStart month (LeapDays year)).
  { unfold t, MakeDate, MakeDay, Day.
    rewrite (Z.div_small month 12), (Z.mod_small month 12) by lia.
    rewrite !Z.add_0_r, Z.div_mul by discriminate. lia. }
  assert (Hstart : 0 <= MonthStart month (LeapDays year)
                   <= 334 + LeapDays year).
  { assert (Hc : month = 0 \/ month = 1 \/ month = 2 \/ month = 3 \/
                 month = 4 \/ month = 5 \/ month = 6 \/ month = 7 \/
                 month = 8 \/ month = 9 \/ month = 10 \/ month = 11) by lia.
    destruct Hc as [H|[H|[H|[H|[H|[H|[H|[H|[H|[H|[H|H]]]]]]]]]]];
      rewrite H; cbn [MonthStart]; lia. }
  assert (Hy : YearFromTime t = year).
  { apply YearFromTime_unique. rewrite Hday, Hs. unfold LeapDays in *. lia. }
  assert (Hw : DayWithinYear t = MonthStart month (LeapDays year)).
  { unfold DayWithinYear. rewrite Hy, Hday. lia. }
  assert (Hmonth : MonthFromTime t = month).
  { unfold MonthFromTime, InLeapYear. rewrite Hw, Hy.
    assert (Hc : month = 0 \/ month = 1 \/ month = 2 \/ month = 3 \/
                 month = 4 \/ month = 5 \/ month = 6 \/ month = 7 \/
                 month = 8 \/ month = 9 \/ month = 10 \/ month = 11) by lia.
    destruct Hc as [H|[H|[H|[H|[H|[H|[H|[H|[H|[H|[H|H]]]]]]]]]]];
      rewrite H; cbn [MonthStart];
      repeat match goal with
             | |- context [if ?a <? ?b then _ else _] =>
                 destruct (Z.ltb_spec a b); cbv iota; try lia
             end; reflexivity. }
  split; [exact Hy|]. split; [exact Hmonth|].
  unfold DateFromTime, InLeapYear. rewrite Hw, Hy, Hmonth. lia.
Qed.

(** 2024-03-31T12:00:00Z is the 31st of March 2024, and one month before
    the 31st of March is the 31st of February, that is the 2nd of March. *)
Example calendar_sample :
  YearFromTime 1711886400000 = 2024
  /\ MonthFromTime 1711886400000 = 2
  /\ DateFromTime 1711886400000 = 31
  /\ MakeDate (MakeDay 2024 (2 - 1) 31) 0 = 1709337600000
  /\ MonthFromTime 1709337600000 = 2
  /\ DateFromTime 1709337600000 = 2.
Proof. repeat split. Qed.


End DateFacts.

(** ** The route guard *)

Module GuardSpec.
Import JSString Middleware StringFacts GuardWords.

Lemma protected_without_session_iff session req :
  negb (is_some session) && startsWith (pathname req) "/dashboard" = true
  <-> protected_without_session session req.
Proof.
  unfold protected_without_session.
  rewrite andb_true_iff, startsWith_iff.
  destruct session; simpl; intuition congruence.
Qed.

Lemma entry_with_session_iff session req :
  is_some session
  && (String.eqb (pathname req) "/login" || String.eqb (pathname req) "/")
  = true
  <-> entry_with_session session req.
Proof.
  unfold entry_with_session.
  rewrite andb_true_iff, orb_true_iff, !String.eqb_eq.
  destruct session; simpl; intuition congruence.
Qed.

(** C1: for every request, the guard redirects to "/login" when there is no
    session and the path starts with "/dashboard", redirects to "/dashboard"
    when there is a session and the path is exactly "/login" or "/", and
    lets the request through unchanged in every other case. *)
Theorem middleware_decision_table (session : option Session)
  (req : NextRequest) :
  (protected_without_session session req ->
   middleware session req = redirect "/login")
  /\ (entry_with_session session req ->
      middleware session req = redirect "/dashboard")
  /\ (~ protected_without_session session req ->
      ~ entry_with_session session req ->
      middleware session req = next).
Proof.
  unfold middleware.
  destruct (negb (is_some session) && startsWith (pathname req) "/dashboard")
    eqn:E1;
  destruct (is_some session
            && (String.eqb (pathname req) "/login"
                || String.eqb (pathname req) "/")) eqn:E2.
  - (* both conditions cannot hold *)
    apply protected_without_session_iff in E1.
    apply entry_with_session_iff in E2.
    destruct E1 as [E1 _], E2 as [E2 _]. contradiction.
  - apply protected_without_session_iff in E1.
    repeat split; intros; try reflexivity; try contradiction.
    exfalso. apply entry_with_session_iff in H. congruence.
  - apply entry_with_session_iff in E2.
    repeat split; intros; try reflexivity; try contradiction.
    exfalso. apply protected_without_session_iff in H. congruence.
  - repeat split; intros H; try reflexivity; exfalso.
    + apply protected_without_session_iff in H. congruence.
    + apply entry_with_session_iff in H. congruence.
Qed.

(** The three scenarios of the guard, obtained from the decision table. *)
Lemma middleware_decision_table_witness :
  middleware None (mkRequest "/dashboard/x") = redirect "/login"
  /\ middleware (Some someSession) (mkRequest "/login") = redirect "/dashboard"
  /\ middleware None (mkRequest "/other") = next
  /\ middleware (Some someSession) (mkRequest "/other") = next.
Proof.
  split; [|split; [|split]].
  - apply (middleware_decision_table None (mkRequest "/dashboard/x")).
    split; [reflexivity | now exists "/x"].
  - apply (middleware_decision_table (Some someSession) (mkRequest "/login")).
    split; [discriminate | now left].
  - apply (middleware_decision_table None (mkRequest "/other")).
    + intros [_ [rest H]]. discriminate.
    + intros [H _]. now apply H.
  - apply (middleware_decision_table (Some someSession) (mkRequest "/other")).
    + intros [H _]. discriminate.
    + intros [_ [H | H]]; discriminate.
Defined.

End GuardSpec.

(** ** formatPhoneNumber *)

Module PhoneSpec.
Import JSString Phone StringFacts PhoneWords.

Lemma len_eqb (s : string) (n : nat) :
  (len s =? Z.of_nat n) = Nat.eqb (String.length s) n.
Proof.
  unfold len. destruct (Nat.eqb_spec (String.length s) n) as [E|E].
  - apply Z.eqb_eq. now rewrite E.
  - apply Z.eqb_neq. lia.
Qed.

Lemma all_digits_local (number : string) :
  all_digits (local_digits number) = true.
Proof.
  unfold local_digits.
  destruct (startsWith _ _);
    [apply all_digits_drop|]; apply all_digits_remove.
Qed.

(** The code's local number, area code and subscriber number are the ones of
    the description. *)
Lemma formatPhoneNumber_parts (number : string) :
  number <> "" ->
  formatPhoneNumber number =
  "(" ++ area_code number ++ ") " ++
  (if Nat.eqb (String.length (subscriber number)) 9
   then replace_d_4_4 (subscriber number)
   else if Nat.eqb (String.length (subscriber number)) 8
        then replace_4_4 (subscriber number)
        else subscriber number).
Proof.
  intros Hne. apply truthy_true_iff in Hne.
  unfold formatPhoneNumber. rewrite Hne. simpl negb. cbv iota.
  change 2 with (Z.of_nat 2). change 0 with (Z.of_nat 0).
  rewrite !substring_from_drop.
  fold (local_digits number).
  rewrite (substring_take_drop _ 0 2) by lia.
  change (take (2 - 0) (drop 0 (local_digits number)))
    with (area_code number).
  fold (subscriber number).
  change 9 with (Z.of_nat 9). change 8 with (Z.of_nat 8).
  now rewrite !len_eqb.
Qed.

Lemma area_code_full (number : string) :
  (2 <= String.length (subscriber number))%nat ->
  String.length (area_code number) = 2%nat.
Proof.
  unfold subscriber, area_code. rewrite length_drop, length_take. lia.
Qed.

(** C2: the empty string is mapped to the empty string; otherwise, with the
    non-digits removed, a leading "55" removed and the next two digits taken
    as area code AA, nine remaining digits give "(AA) D DDDD-DDDD", eight
    give "(AA) DDDD-DDDD", and any other number of remaining digits is
    appended to "(AA) " as it is. *)
Theorem formatPhoneNumber_patterns (number : string) :
  (number = "" -> formatPhoneNumber number = "")
  /\ (number <> "" ->
      (String.length (subscriber number) = 9%nat ->
       mobile_pattern (area_code number) (subscriber number)
                      (formatPhoneNumber number))
      /\ (String.length (subscriber number) = 8%nat ->
          landline_pattern (area_code number) (subscriber number)
                           (formatPhoneNumber number))
      /\ (String.length (subscriber number) <> 9%nat ->
          String.length (subscriber number) <> 8%nat ->
          formatPhoneNumber number
          = "(" ++ area_code number ++ ") " ++ subscriber number)).
Proof.
  split; [intros ->; reflexivity|].
  intros Hne. rewrite (formatPhoneNumber_parts number Hne).
  assert (Hsub : all_digits (subscriber number) = true)
    by (apply all_digits_drop, all_digits_local).
  assert (Haa : all_digits (area_code number) = true)
    by (apply all_digits_take, all_digits_local).
  split; [|split].
  - intros H9. rewrite H9. simpl Nat.eqb. cbv iota.
    split; [apply area_code_full; lia|]. split; [exact Haa|].
    split; [exact Hsub|].
    unfold replace_d_4_4.
    change 9 with (Z.of_nat 9). rewrite len_eqb, H9, Hsub.
    simpl andb. cbv iota.
    destruct (subscriber number) as [|d1 [|d2 [|d3 [|d4 [|d5 [|d6 [|d7 [|d8
      [|d9 [|]]]]]]]]]]; try discriminate H9.
    exists d1, d2, d3, d4, d5, d6, d7, d8, d9. split; reflexivity.
  - intros H8. rewrite H8. simpl Nat.eqb. cbv iota.
    split; [apply area_code_full; lia|]. split; [exact Haa|].
    split; [exact Hsub|].
    unfold replace_4_4.
    change 8 with (Z.of_nat 8). rewrite len_eqb, H8, Hsub.
    simpl andb. cbv iota.
    destruct (subscriber number) as [|d1 [|d2 [|d3 [|d4 [|d5 [|d6 [|d7 [|d8
      [|]]]]]]]]]; try discriminate H8.
    exists d1, d2, d3, d4, d5, d6, d7, d8. split; reflexivity.
  - intros N9 N8.
    apply Nat.eqb_neq in N9, N8. now rewrite N9, N8.
Qed.

Example formatPhoneNumber_mobile :
  formatPhoneNumber "+55 (11) 98765-4321" = "(11) 9 8765-4321".
Proof. reflexivity. Qed.

Example formatPhoneNumber_landline :
  formatPhoneNumber "1132654321" = "(11) 3265-4321".
Proof. reflexivity. Qed.

Example formatPhoneNumber_short :
  formatPhoneNumber "5511987" = "(11) 987".
Proof. reflexivity. Qed.

Example formatPhoneNumber_no_digits :
  formatPhoneNumber "abc" = "() ".
Proof. reflexivity. Qed.

(** The four cases on concrete numbers, obtained from the theorem. *)
Lemma formatPhoneNumber_patterns_witness :
  formatPhoneNumber "" = ""
  /\ mobile_pattern "11" "987654321" (formatPhoneNumber "+55 (11) 98765-4321")
  /\ landline_pattern "11" "32654321" (formatPhoneNumber "1132654321")
  /\ formatPhoneNumber "5511987" = "(11) 987".
Proof.
  split; [|split; [|split]].
  - now apply (formatPhoneNumber_patterns "").
  - apply (formatPhoneNumber_patterns "+55 (11) 98765-4321");
      [discriminate | reflexivity].
  - apply (formatPhoneNumber_patterns "1132654321");
      [discriminate | reflexivity].
  - apply (formatPhoneNumber_patterns "5511987"); simpl; discriminate.
Defined.

End PhoneSpec.

(** ** applyFilters *)

Module FilterSpec.
Import JSString Dashboard StringFacts DateFacts FilterWords.

Lemma Subseq_refl {A : Type} (l : list A) : Subseq l l.
Proof. induction l; constructor; assumption. Qed.

Lemma Subseq_trans {A : Type} (l1 l2 l3 : list A) :
  Subseq l1 l2 -> Subseq l2 l3 -> Subseq l1 l3.
Proof.
  intros H12 H23. revert l1 H12.
  induction H23 as [|x l2 l3 H IH|x l2 l3 H IH]; intros l1 H12.
  - exact H12.
  - inversion H12; subst.
    + constructor. now apply IH.
    + apply Subseq_skip. now apply IH.
  - apply Subseq_skip. now apply IH.
Qed.

Lemma Subseq_In {A : Type} (l1 l2 : list A) (x : A) :
  Subseq l1 l2 -> In x l1 -> In x l2.
Proof.
  induction 1 as [|y l1 l2 H IH|y l1 l2 H IH]; simpl; intuition.
Qed.

Lemma Subseq_filter {A : Type} (p : A -> bool) (l : list A) :
  Subseq (filter p l) l.
Proof.
  induction l as [|x l IH]; simpl; [constructor|].
  destruct (p x); constructor; assumption.
Qed.

(** When every element that [p] keeps is kept by [q] too, filtering by [p]
    removes elements from the result of filtering by [q]. *)
Lemma Subseq_filter_weaken {A : Type} (p q : A -> bool) (l : list A) :
  (forall x, In x l -> p x = true -> q x = true) ->
  Subseq (filter p l) (filter q l).
Proof.
  induction l as [|x l IH]; simpl; intros H; [constructor|].
  assert (IH' : Subseq (filter p l) (filter q l)) by (apply IH; auto).
  destruct (p x) eqn:Ep.
  - rewrite (H x (or_introl eq_refl) Ep). now constructor.
  - destruct (q x); [now apply Subseq_skip | exact IH'].
Qed.

Lemma includes_substring_of (s q : string) :
  includes s q = true <-> substring_of q s.
Proof. apply includes_iff. Qed.

(** What the predicate handed to [filter] decides. *)
Lemma passes_search_filter_iff (search : string) (c : Contact) :
  passes_search_filter search c <-> search_predicate_stored_phone search c.
Proof.
  unfold passes_search_filter, search_filter, search_predicate_stored_phone,
    ci_substring_of.
  now rewrite orb_true_iff, !includes_substring_of.
Qed.

(** A substring of the stored text is also one when case is ignored. *)
Lemma substring_of_lower (q s : string) :
  substring_of (toLowerCase q) s -> ci_substring_of q s.
Proof.
  intros [pre [post ->]]. unfold ci_substring_of.
  exists (toLowerCase pre), (toLowerCase post).
  now rewrite !toLowerCase_app, toLowerCase_idem.
Qed.

Lemma search_predicate_stored_phone_weaken (search : string) (c : Contact) :
  search_predicate_stored_phone search c -> search_predicate search c.
Proof.
  intros [H|H]; [now left | right; now apply substring_of_lower].
Qed.

(** On a phone number without capital letters the two predicates agree. *)
Lemma search_predicate_lower_phone (search : string) (c : Contact) :
  toLowerCase (whatsapp c) = whatsapp c ->
  (search_predicate_stored_phone search c <-> search_predicate search c).
Proof.
  intros Hlow. unfold search_predicate_stored_phone, search_predicate,
    ci_substring_of. now rewrite Hlow.
Qed.

Section Environment.
Variable LocalTZA : Z -> bool -> Z.
Variable Date_parse : string -> option Z.

Lemma ge_on_or_after (bound : JSDate.Date) (c : Contact) :
  JSDate.ge (Date_parse (updated_at c)) bound = true
  <-> on_or_after Date_parse bound c.
Proof.
  unfold JSDate.ge, FilterWords.on_or_after.
  destruct (Date_parse (updated_at c)) as [t|], bound as [b|]; split;
    try discriminate.
  - intros H. apply Z.leb_le in H. now exists b, t.
  - intros [b' [t' [Hb [Ht H]]]]. injection Hb as <-. injection Ht as <-.
    now apply Z.leb_le.
  - intros [b' [t' [Hb [Ht H]]]]. discriminate.
  - intros [b' [t' [Hb [Ht H]]]]. discriminate.
  - intros [b' [t' [Hb [Ht H]]]]. discriminate.
Qed.

(** The contacts that applyFilters keeps. *)
Lemma applyFilters_result_In (now : Z) (contacts : list Contact)
  (search : string) (f : DateFilter) (c : Contact) :
  In c (applyFilters_result LocalTZA Date_parse now contacts search f) <->
  In c contacts
  /\ (search <> "" -> search_predicate_stored_phone search c)
  /\ date_predicate LocalTZA Date_parse f now c.
Proof.
  unfold Dashboard.applyFilters_result.
  assert (Hs : forall l,
    In c (if truthy search
          then filter (search_filter (toLowerCase search)) l else l) <->
    In c l /\ (search <> "" -> search_predicate_stored_phone search c)).
  { intros l. destruct search as [|a search']; simpl truthy; cbv iota.
    - intuition.
    - rewrite filter_In.
      fold (passes_search_filter (String a search') c).
      rewrite passes_search_filter_iff.
      intuition discriminate. }
  destruct f; simpl FilterWords.date_predicate;
    rewrite ?filter_In, ?ge_on_or_after, Hs; tauto.
Qed.

(** C3: the result of applyFilters is the collection with some contacts
    removed and the others in their order, and every contact of the result
    satisfies the search predicate (when the search text is not empty) and
    the date-range predicate on updated_at. *)
Theorem applyFilters_result_sound (now : Z) (contacts : list Contact)
  (search : string) (f : DateFilter) :
  Subseq (applyFilters_result LocalTZA Date_parse now contacts search f)
         contacts
  /\ forall c,
       In c (applyFilters_result LocalTZA Date_parse now contacts search f) ->
       In c contacts
       /\ (search <> "" -> search_predicate search c)
       /\ date_predicate LocalTZA Date_parse f now c.
Proof.
  split.
  - unfold Dashboard.applyFilters_result.
    assert (H : Subseq (if truthy search
                        then filter (search_filter (toLowerCase search))
                                    contacts
                        else contacts) contacts).
    { destruct (truthy search); [apply Subseq_filter | apply Subseq_refl]. }
    destruct f; try exact H;
      (eapply Subseq_trans; [apply Subseq_filter | exact H]).
  - intros c Hc. apply applyFilters_result_In in Hc.
    destruct Hc as [Hin [Hs Hd]]. repeat split; try assumption.
    intros Hne. now apply search_predicate_stored_phone_weaken, Hs.
Qed.

End Environment.

(** The example collection under the search text "an" and the filter
    "week". *)
Lemma applyFilters_result_sound_witness :
  Subseq (applyFilters_result Samples.tz_minus_3h Samples.parse_sample
            Samples.sample_now Samples.sample_contacts "an" week)
         Samples.sample_contacts
  /\ In Samples.ana Samples.sample_contacts
  /\ search_predicate "an" Samples.ana
  /\ date_predicate Samples.tz_minus_3h Samples.parse_sample week
       Samples.sample_now Samples.ana.
Proof.
  destruct (applyFilters_result_sound Samples.tz_minus_3h Samples.parse_sample
              Samples.sample_now Samples.sample_contacts "an" week)
    as [Hsub Hall].
  split; [exact Hsub|].
  destruct (Hall Samples.ana) as [Hin [Hs Hd]].
  - vm_compute. now left.
  - split; [exact Hin|]. split; [apply Hs; discriminate | exact Hd].
Defined.

Example applyFilters_result_sample_today :
  applyFilters_result Samples.tz_minus_3h Samples.parse_sample
    Samples.sample_now Samples.sample_contacts "" today = [Samples.ana].
Proof. reflexivity. Qed.

Example applyFilters_result_sample_week :
  applyFilters_result Samples.tz_minus_3h Samples.parse_sample
    Samples.sample_now Samples.sample_contacts "" week
  = [Samples.ana; Samples.bruno].
Proof. reflexivity. Qed.

Example applyFilters_result_sample_month :
  applyFilters_result Samples.tz_minus_3h Samples.parse_sample
    Samples.sample_now Samples.sample_contacts "" month
  = [Samples.ana; Samples.bruno; Samples.carla].
Proof. reflexivity. Qed.

Example applyFilters_result_sample_search :
  applyFilters_result Samples.tz_minus_3h Samples.parse_sample
    Samples.sample_now Samples.sample_contacts "AN" all
  = [Samples.ana; Samples.carla].
Proof. reflexivity. Qed.

(** C4, as stated, fails: the phone number is compared as it is stored, so
    a search text that matches it only up to case does not pass. *)
Lemma search_filter_phone_case_counterexample :
  "casa" <> ""
  /\ ~ (passes_search_filter "casa" Samples.dora
        <-> search_predicate "casa" Samples.dora).
Proof.
  split; [discriminate|]. intros [_ H].
  assert (Hp : search_predicate "casa" Samples.dora).
  { right. now exists "5511912345678 (", ")". }
  specialize (H Hp). vm_compute in H. discriminate.
Qed.

(** C4, amended: for a non-empty search text, a contact passes the search
    filter exactly when the search text is a case-insensitive substring of
    its name, or the lower-cased search text is a substring of its phone
    number as stored. *)
Theorem search_filter_characterisation (LocalTZA : Z -> bool -> Z)
  (Date_parse : string -> option Z) (now : Z) (contacts : list Contact)
  (search : string) (c : Contact) :
  search <> "" ->
  (passes_search_filter search c <-> search_predicate_stored_phone search c)
  /\ (In c (applyFilters_result LocalTZA Date_parse now contacts search all)
      <-> In c contacts /\ search_predicate_stored_phone search c).
Proof.
  intros Hne. split; [apply passes_search_filter_iff|].
  rewrite applyFilters_result_In. simpl. tauto.
Qed.

Lemma search_filter_characterisation_witness :
  "AN" <> ""
  /\ (passes_search_filter "AN" Samples.carla
      <-> search_predicate_stored_phone "AN" Samples.carla)
  /\ (In Samples.carla
        (applyFilters_result Samples.tz_minus_3h Samples.parse_sample
           Samples.sample_now Samples.sample_contacts "AN" all)
      <-> In Samples.carla Samples.sample_contacts
          /\ search_predicate_stored_phone "AN" Samples.carla).
Proof.
  split; [discriminate|].
  apply (search_filter_characterisation Samples.tz_minus_3h
           Samples.parse_sample Samples.sample_now Samples.sample_contacts
           "AN" Samples.carla).
  discriminate.
Defined.

End FilterSpec.

(** ** The date filter settings are nested *)

Module DateFilterSpec.
Import JSString Dashboard StringFacts DateFacts FilterWords DateWords.
Import FilterSpec.

Lemma TimeClip_Some (t : Z) :
  Z.abs t <= JSDate.maxTime -> JSDate.TimeClip t = Some t.
Proof.
  intros H. unfold JSDate.TimeClip.
  destruct (Z.ltb_spec JSDate.maxTime (Z.abs t)); [lia | reflexivity].
Qed.

Lemma TimeClip_inv (t s : Z) :
  JSDate.TimeClip t = Some s -> s = t /\ Z.abs t <= JSDate.maxTime.
Proof.
  unfold JSDate.TimeClip.
  destruct (Z.ltb_spec JSDate.maxTime (Z.abs t)) as [Hgt|Hle];
    [discriminate|].
  intros E. injection E as <-. split; [reflexivity | assumption].
Qed.

Lemma not_later_on_or_after (Date_parse : string -> option Z)
  (a b : JSDate.Date) (c : Contact) :
  not_later a b -> on_or_after Date_parse b c -> on_or_after Date_parse a c.
Proof.
  intros Hab [tb [t [Hb [Ht Hle]]]].
  destruct (Hab tb Hb) as [s [Ha Hs]].
  exists s, t. repeat split; try assumption. lia.
Qed.

Section Environment.
Variable LocalTZA : Z -> bool -> Z.
Variable Date_parse : string -> option Z.
Hypothesis TZ_bounded : tz_bounded LocalTZA.

Lemma LocalTime_bounds (t : Z) :
  t - JSDate.msPerDay <= JSDate.LocalTime LocalTZA t <= t + JSDate.msPerDay.
Proof. unfold JSDate.LocalTime. pose proof (TZ_bounded t true). lia. Qed.

Lemma UTC_bounds (t : Z) :
  t - JSDate.msPerDay <= JSDate.UTC LocalTZA t <= t + JSDate.msPerDay.
Proof. unfold JSDate.UTC. pose proof (TZ_bounded t false). lia. Qed.

(** The start of today is at most three days before the clock reading. *)
Lemma startOfToday_bounds (now t0 : Z) :
  startOfToday LocalTZA now = Some t0 ->
  now - 3 * JSDate.msPerDay <= t0.
Proof.
  unfold startOfToday, JSDate.setHours. intros H.
  apply TimeClip_inv in H. destruct H as [-> _].
  pose proof (LocalTime_bounds now) as Hl.
  pose proof (UTC_bounds
    (JSDate.MakeDate (JSDate.Day (JSDate.LocalTime LocalTZA now))
                     (JSDate.MakeTime 0 0 0 0))) as Hu.
  pose proof (MakeDate_Day (JSDate.LocalTime LocalTZA now)) as Hd.
  assert (Hw : 0 <= JSDate.TimeWithinDay (JSDate.LocalTime LocalTZA now)
               < JSDate.msPerDay)
    by (apply Z.mod_pos_bound; reflexivity).
  unfold JSDate.MakeDate, JSDate.MakeTime in *. lia.
Qed.

(** [d.setDate(d.getDate() - 7)] moves the local time back by seven days. *)
Lemma setDate_minus_7 (t0 : Z) :
  JSDate.setDate LocalTZA (Some t0)
    (option_map (fun x => x - 7) (JSDate.getDate LocalTZA (Some t0)))
  = JSDate.TimeClip
      (JSDate.UTC LocalTZA
         (JSDate.LocalTime LocalTZA t0 - 7 * JSDate.msPerDay)).
Proof.
  unfold JSDate.setDate, JSDate.getDate, option_map.
  rewrite MakeDay_same_month.
  set (t := JSDate.LocalTime LocalTZA t0).
  pose proof (MakeDate_Day t) as Hd.
  replace (JSDate.MakeDate (JSDate.Day t + (JSDate.DateFromTime t - 7
                                           - JSDate.DateFromTime t))
                           (JSDate.TimeWithinDay t))
    with (t - 7 * JSDate.msPerDay)
    by (unfold JSDate.MakeDate in *; lia).
  reflexivity.
Qed.

(** [d.setMonth(d.getMonth() - 1)] moves the local time back by the length
    of the previous month. *)
Lemma setMonth_minus_1 (t0 : Z) :
  exists L, 28 <= L <= 31 /\
    JSDate.setMonth LocalTZA (Some t0)
      (option_map (fun x => x - 1) (JSDate.getMonth LocalTZA (Some t0)))
    = JSDate.TimeClip
        (JSDate.UTC LocalTZA
           (JSDate.LocalTime LocalTZA t0 - L * JSDate.msPerDay)).
Proof.
  unfold JSDate.setMonth, JSDate.getMonth, option_map.
  set (t := JSDate.LocalTime LocalTZA t0).
  pose proof (MakeDay_previous_month t) as HL.
  pose proof (MakeDate_Day t) as Hd.
  set (day := JSDate.MakeDay (JSDate.YearFromTime t)
                (JSDate.MonthFromTime t - 1) (JSDate.DateFromTime t)) in *.
  exists (JSDate.Day t - day).
  split; [exact HL|].
  replace (JSDate.MakeDate day (JSDate.TimeWithinDay t))
    with (t - (JSDate.Day t - day) * JSDate.msPerDay)
    by (unfold JSDate.MakeDate in *; lia).
  reflexivity.
Qed.

(** The three lower bounds are ordered. *)
Lemma bounds_ordered (now : Z) :
  clock_in_range now ->
  not_later (oneMonthAgo LocalTZA now) (oneWeekAgo LocalTZA now)
  /\ not_later (oneWeekAgo LocalTZA now) (startOfToday LocalTZA now).
Proof.
  intros Hnow. unfold clock_in_range in Hnow.
  unfold oneMonthAgo, oneWeekAgo.
  destruct (startOfToday LocalTZA now) as [t0|] eqn:E0.
  2:{ split; intros t H; discriminate. }
  pose proof (startOfToday_bounds now t0 E0) as Hlow.
  assert (Hup : Z.abs t0 <= JSDate.maxTime).
  { unfold startOfToday, JSDate.setHours in E0.
    apply TimeClip_inv in E0. destruct E0 as [<- H]. exact H. }
  rewrite setDate_minus_7.
  destruct (setMonth_minus_1 t0) as [L [HL ->]].
  pose proof (LocalTime_bounds t0) as Hl.
  set (tl := JSDate.LocalTime LocalTZA t0) in *.
  pose proof (UTC_bounds (tl - 7 * JSDate.msPerDay)) as Hw.
  pose proof (UTC_bounds (tl - L * JSDate.msPerDay)) as Hm.
  set (tw := JSDate.UTC LocalTZA (tl - 7 * JSDate.msPerDay)) in *.
  set (tm := JSDate.UTC LocalTZA (tl - L * JSDate.msPerDay)) in *.
  unfold JSDate.msPerDay, JSDate.maxTime in *.
  rewrite (TimeClip_Some tw) by (unfold JSDate.maxTime; lia).
  rewrite (TimeClip_Some tm) by (unfold JSDate.maxTime; lia).
  split; intros t Ht; injection Ht as <-; eexists; (split; [reflexivity|]);
    lia.
Qed.

(** C10: at one instant, the contacts that pass "today" are among those
    that pass "week", those are among the ones that pass "month", and those
    among the ones that pass "all"; each setting keeps the contacts whose
    updated_at is on or after its bound, and the bounds are ordered. *)
Theorem date_filters_nested (now : Z) (contacts : list Contact)
  (search : string) :
  clock_in_range now ->
  Subseq (applyFilters_result LocalTZA Date_parse now contacts search today)
         (applyFilters_result LocalTZA Date_parse now contacts search week)
  /\ Subseq (applyFilters_result LocalTZA Date_parse now contacts search week)
            (applyFilters_result LocalTZA Date_parse now contacts search month)
  /\ Subseq (applyFilters_result LocalTZA Date_parse now contacts search month)
            (applyFilters_result LocalTZA Date_parse now contacts search all)
  /\ not_later (oneMonthAgo LocalTZA now) (oneWeekAgo LocalTZA now)
  /\ not_later (oneWeekAgo LocalTZA now) (startOfToday LocalTZA now)
  /\ forall f c,
       In c (applyFilters_result LocalTZA Date_parse now contacts search f)
       <-> In c (applyFilters_result LocalTZA Date_parse now contacts search
                   all)
           /\ date_predicate LocalTZA Date_parse f now c.
Proof.
  intros Hnow. destruct (bounds_ordered now Hnow) as [Hmw Hwt].
  split; [|split; [|split; [|split; [|split]]]]; try assumption.
  - unfold applyFilters_result. apply Subseq_filter_weaken.
    intros c _. rewrite !ge_on_or_after. now apply not_later_on_or_after.
  - unfold applyFilters_result. apply Subseq_filter_weaken.
    intros c _. rewrite !ge_on_or_after. now apply not_later_on_or_after.
  - unfold applyFilters_result. apply Subseq_filter.
  - intros f c. rewrite !applyFilters_result_In.
    cbn [FilterWords.date_predicate]. tauto.
Qed.

End Environment.

(** At 12:00 local time on 2024-03-31, three hours behind UTC: today starts
    at 03:00Z, a week ago is the 24th and a month ago is the 2nd of March. *)
Example bounds_sample :
  startOfToday Samples.tz_minus_3h Samples.sample_now = Some 1711854000000
  /\ oneWeekAgo Samples.tz_minus_3h Samples.sample_now = Some 1711249200000
  /\ oneMonthAgo Samples.tz_minus_3h Samples.sample_now = Some 1709348400000.
Proof. repeat split. Qed.

Lemma tz_minus_3h_bounded : tz_bounded Samples.tz_minus_3h.
Proof. intros t b. unfold Samples.tz_minus_3h, JSDate.msPerDay. lia. Qed.

Lemma date_filters_nested_witness :
  clock_in_range Samples.sample_now
  /\ Subseq [Samples.ana] [Samples.ana; Samples.bruno]
  /\ Subseq [Samples.ana; Samples.bruno]
            [Samples.ana; Samples.bruno; Samples.carla]
  /\ Subseq [Samples.ana; Samples.bruno; Samples.carla]
            Samples.sample_contacts.
Proof.
  assert (Hnow : clock_in_range Samples.sample_now)
    by (unfold clock_in_range; vm_compute; discriminate).
  split; [exact Hnow|].
  destruct (date_filters_nested Samples.tz_minus_3h Samples.parse_sample
              tz_minus_3h_bounded Samples.sample_now Samples.sample_contacts
              "" Hnow) as [H1 [H2 [H3 _]]].
  repeat split; assumption.
Defined.

End DateFilterSpec.

(** ** Pagination *)

Module PageSpec.
Import Dashboard PageWords.

(** The restriction to a range of indices, by dropping and taking. *)
Lemma restrict_from_firstn_skipn {A : Type} (l : list A) (first lo hi : Z) :
  restrict_from first l lo hi
  = firstn (Z.to_nat (hi - Z.max lo first))
           (skipn (Z.to_nat (lo - first)) l).
Proof.
  revert first. induction l as [|x l IH]; intros first.
  - now rewrite skipn_nil, firstn_nil.
  - cbn [restrict_from]. rewrite IH.
    destruct (Z.leb_spec lo first) as [Hlo|Hlo]; cbn [andb].
    + replace (Z.to_nat (lo - first)) with 0%nat by lia.
      replace (Z.to_nat (lo - (first + 1))) with 0%nat by lia.
      cbn [skipn].
      replace (Z.max lo (first + 1)) with (first + 1) by lia.
      replace (Z.max lo first) with first by lia.
      destruct (Z.ltb_spec first hi) as [Hhi|Hhi].
      * replace (Z.to_nat (hi - first))
          with (S (Z.to_nat (hi - (first + 1)))) by lia.
        reflexivity.
      * replace (Z.to_nat (hi - first)) with 0%nat by lia.
        replace (Z.to_nat (hi - (first + 1))) with 0%nat by lia.
        reflexivity.
    + replace (Z.to_nat (lo - first))
        with (S (Z.to_nat (lo - (first + 1)))) by lia.
      cbn [skipn].
      replace (Z.max lo (first + 1)) with lo by lia.
      replace (Z.max lo first) with lo by lia.
      reflexivity.
Qed.

Lemma firstn_min_length {A : Type} (l : list A) (n : nat) :
  firstn (Nat.min n (List.length l)) l = firstn n l.
Proof.
  destruct (Nat.le_gt_cases n (List.length l)) as [H|H].
  - now rewrite Nat.min_l.
  - rewrite Nat.min_r by lia. rewrite !firstn_all2 by lia. reflexivity.
Qed.

(** [slice] on indices that are in order and not negative. *)
Lemma slice_firstn_skipn {A : Type} (a : list A) (start end_ : Z) :
  0 <= start <= end_ ->
  JSArray.slice a start end_
  = firstn (Z.to_nat (end_ - start)) (skipn (Z.to_nat start) a).
Proof.
  intros [H0 Hle]. unfold JSArray.slice, JSArray.len.
  set (n := List.length a).
  destruct (Z.ltb_spec start 0) as [?|_]; [lia|].
  destruct (Z.ltb_spec end_ 0) as [?|_]; [lia|].
  destruct (Z.le_gt_cases (Z.of_nat n) start) as [Hbig|Hsmall].
  - rewrite (skipn_all2 a (n := Z.to_nat start)) by (fold n; lia).
    rewrite (skipn_all2 a (n := Z.to_nat (Z.min start (Z.of_nat n))))
      by (fold n; lia).
    now rewrite !firstn_nil.
  - replace (Z.min start (Z.of_nat n)) with start by lia.
    rewrite <- (firstn_min_length (skipn (Z.to_nat start) a)
                  (Z.to_nat (end_ - start))).
    rewrite length_skipn. fold n. f_equal. lia.
Qed.

Lemma slice_restricted_to {A : Type} (a : list A) (start end_ : Z) :
  0 <= start <= end_ ->
  JSArray.slice a start end_ = restricted_to a start end_.
Proof.
  intros H. rewrite slice_firstn_skipn by assumption.
  unfold restricted_to. rewrite restrict_from_firstn_skipn.
  replace (Z.max start 0) with start by lia.
  now rewrite Z.sub_0_r.
Qed.

Lemma ceil_div_is_ceiling (n d : Z) :
  0 < d -> is_ceiling n d (JSArray.ceil_div n d).
Proof.
  intros Hd. unfold is_ceiling, JSArray.ceil_div.
  pose proof (Z.div_mod (- n) d ltac:(lia)) as E.
  pose proof (Z.mod_pos_bound (- n) d Hd) as B. nia.
Qed.

Lemma is_ceiling_unique (n d p q : Z) :
  0 < d -> is_ceiling n d p -> is_ceiling n d q -> p = q.
Proof. unfold is_ceiling. intros Hd Hp Hq. nia. Qed.

Lemma totalPages_is_ceiling (st : ViewState) :
  is_ceiling (JSArray.len (filteredContacts st)) itemsPerPage (totalPages st).
Proof. apply ceil_div_is_ceiling. reflexivity. Qed.

(** C5, as stated, fails on the page count: an empty filtered list has
    0 pages, not 1.  (And a page number below 1, which no button produces,
    gives negative indices, which [slice] counts from the end of the list:
    page -1 of fifteen contacts shows the first five.) *)
Lemma totalPages_empty_counterexample :
  (filteredContacts initialState = []
   /\ totalPages initialState = 0
   /\ ~ page_count_min_1 (JSArray.len (filteredContacts initialState))
          itemsPerPage (totalPages initialState))
  /\ (currentContacts (setCurrentPage (-1) Samples.second_page)
      = Samples.sample_contacts
      /\ restricted_to (filteredContacts Samples.second_page)
           ((-1 - 1) * 10) (-1 * 10) = []).
Proof.
  split.
  - split; [reflexivity|]. split; [reflexivity|].
    intros [p [_ H]]. change (totalPages initialState) with 0 in H. lia.
  - split; reflexivity.
Qed.

(** C5, amended: for every state whose current page [p] is at least 1, the
    displayed page is the filtered list restricted to the indices of
    [(p-1)*10, p*10), and the page count is the ceiling of the length of
    the filtered list over 10, which is 0 for the empty list. *)
Theorem pagination_slice_and_count (st : ViewState) :
  1 <= currentPage st ->
  currentContacts st
  = restricted_to (filteredContacts st)
      ((currentPage st - 1) * 10) (currentPage st * 10)
  /\ is_ceiling (JSArray.len (filteredContacts st)) 10 (totalPages st)
  /\ (filteredContacts st = [] -> totalPages st = 0).
Proof.
  intros Hp. split; [|split].
  - unfold currentContacts, endIndex, startIndex, itemsPerPage.
    rewrite slice_restricted_to by lia. f_equal. lia.
  - apply totalPages_is_ceiling.
  - intros E. unfold totalPages. now rewrite E.
Qed.

Lemma pagination_slice_and_count_witness :
  1 <= currentPage Samples.second_page
  /\ currentContacts Samples.second_page
     = restricted_to (filteredContacts Samples.second_page) 10 20
  /\ currentContacts Samples.second_page = Samples.sample_contacts
  /\ is_ceiling 15 10 (totalPages Samples.second_page).
Proof.
  assert (Hp : 1 <= currentPage Samples.second_page) by (simpl; lia).
  destruct (pagination_slice_and_count Samples.second_page Hp)
    as [Hslice [Hceil _]].
  split; [exact Hp|]. split; [exact Hslice|].
  split; [rewrite Hslice; reflexivity | exact Hceil].
Defined.

End PageSpec.

(** ** The handlers and the filter effect *)

Module ViewSpec.
Import Dashboard PageWords.

Lemma DateFilter_eqb_eq (a b : DateFilter) :
  DateFilter_eqb a b = true <-> a = b.
Proof. destruct a, b; simpl; split; congruence. Qed.

Lemma deps_changed_iff (old new : ViewState) :
  deps_changed old new = true <-> inputs_changed old new.
Proof.
  unfold deps_changed, inputs_changed.
  rewrite negb_true_iff, !andb_false_iff.
  rewrite Nat.eqb_neq, String.eqb_neq.
  rewrite <- not_true_iff_false, DateFilter_eqb_eq. tauto.
Qed.

Lemma deps_changed_refl (st : ViewState) : deps_changed st st = false.
Proof.
  unfold deps_changed.
  rewrite Nat.eqb_refl, String.eqb_refl.
  now destruct (dateFilter st).
Qed.

(** *** fetchContacts *)

Lemma run_fetchContacts_error (b : Backend) (st : ViewState)
  (e : PostgrestError) :
  error (select_response b) = Some e ->
  run (fetchContacts b) st
  = (st, [select_all; console_error "Error fetching contacts:" e]).
Proof.
  intros E. unfold run, fetchContacts, bind, emit, set. simpl. now rewrite E.
Qed.

Lemma run_fetchContacts_ok (b : Backend) (st : ViewState) :
  error (select_response b) = None ->
  run (fetchContacts b) st
  = (setContacts (or_empty (data (select_response b))) st, [select_all]).
Proof.
  intros E. unfold run, fetchContacts, bind, emit, set. simpl. now rewrite E.
Qed.

Section Environment.
Variable LocalTZA : Z -> bool -> Z.
Variable Date_parse : string -> option Z.

(** C9: when the fetch of the collection fails, the error is logged and
    nothing else happens: one request, no change of the state (so the
    collection in memory and everything on display stay as they were);
    when it succeeds, the collection is replaced by the rows received. *)
Theorem fetchContacts_failure_keeps_collection (now : Z) (b : Backend)
  (st : ViewState) :
  (forall e, error (select_response b) = Some e ->
     run (fetchContacts b) st
     = (st, [select_all; console_error "Error fetching contacts:" e])
     /\ step LocalTZA Date_parse now b click_refresh st
        = (st, [select_all; console_error "Error fetching contacts:" e]))
  /\ (error (select_response b) = None ->
      contacts (fst (run (fetchContacts b) st))
      = or_empty (data (select_response b))
      /\ contacts (fst (step LocalTZA Date_parse now b click_refresh st))
         = or_empty (data (select_response b))
      /\ snd (step LocalTZA Date_parse now b click_refresh st)
         = [select_all]).
Proof.
  split.
  - intros e E. split; [now apply run_fetchContacts_error|].
    unfold step. cbn [handle]. rewrite (run_fetchContacts_error b st e E).
    unfold filterEffect. now rewrite deps_changed_refl.
  - intros E. unfold step. cbn [handle]. rewrite (run_fetchContacts_ok b st E).
    cbn [fst snd]. repeat split.
    unfold filterEffect, applyFilters.
    now destruct (deps_changed _ _).
Qed.

End Environment.

Lemma fetchContacts_failure_keeps_collection_witness :
  step Samples.tz_minus_3h Samples.parse_sample Samples.sample_now
       Samples.failing_backend click_refresh Samples.second_page
  = (Samples.second_page,
     [select_all;
      console_error "Error fetching contacts:" Samples.some_error])
  /\ contacts
       (fst (step Samples.tz_minus_3h Samples.parse_sample Samples.sample_now
               (Samples.backend_with [Samples.ana]) click_refresh
               Samples.second_page))
     = [Samples.ana].
Proof.
  destruct (fetchContacts_failure_keeps_collection Samples.tz_minus_3h
              Samples.parse_sample Samples.sample_now Samples.failing_backend
              Samples.second_page) as [Hfail _].
  destruct (fetchContacts_failure_keeps_collection Samples.tz_minus_3h
              Samples.parse_sample Samples.sample_now
              (Samples.backend_with [Samples.ana])
              Samples.second_page) as [_ Hok].
  split.
  - now apply (Hfail Samples.some_error).
  - now apply Hok.
Defined.

(** *** handleConfirmDelete *)

Lemma run_handleConfirmDelete_error (b : Backend) (st : ViewState)
  (c : Contact) (e : PostgrestError) :
  contactToDelete st = Some c ->
  delete_response b (id c) = Some e ->
  run (handleConfirmDelete b) st
  = (st, [delete_eq_id (id c); console_error "Error deleting contact:" e]).
Proof.
  intros Hc He. unfold run, handleConfirmDelete, bind, get, emit. simpl.
  rewrite Hc. simpl. now rewrite He.
Qed.

Lemma run_handleConfirmDelete_ok (b : Backend) (st : ViewState)
  (c : Contact) :
  contactToDelete st = Some c ->
  delete_response b (id c) = None ->
  run (handleConfirmDelete b) st
  = (setContactToDelete None
       (setDeleteModalOpen false (fst (run (fetchContacts b) st))),
     delete_eq_id (id c) :: snd (run (fetchContacts b) st)).
Proof.
  intros Hc He. unfold run, handleConfirmDelete, bind, get, emit, set. simpl.
  rewrite Hc. simpl. rewrite He.
  unfold fetchContacts, bind, emit, set. simpl.
  now destruct (error (select_response b)).
Qed.

Lemma filterEffect_modal (LocalTZA : Z -> bool -> Z)
  (Date_parse : string -> option Z) (now : Z) (old new : ViewState) :
  deleteModalOpen (filterEffect LocalTZA Date_parse now old new)
  = deleteModalOpen new
  /\ contactToDelete (filterEffect LocalTZA Date_parse now old new)
     = contactToDelete new.
Proof. unfold filterEffect. now destruct (deps_changed old new). Qed.

(** C8, as stated, fails: after a failed delete request the confirmation
    modal is still open. *)
Lemma failed_delete_modal_counterexample :
  contactToDelete Samples.confirming_delete = Some Samples.bruno
  /\ delete_response Samples.failing_backend (id Samples.bruno)
     = Some Samples.some_error
  /\ deleteModalOpen
       (fst (step Samples.tz_minus_3h Samples.parse_sample Samples.sample_now
               Samples.failing_backend click_confirm
               Samples.confirming_delete))
     = true.
Proof. repeat split. Qed.

(** C8, amended: when the confirmed delete request fails, the handler logs
    the error and leaves the state as it was, the confirmation modal still
    open; when it succeeds, the handler requests the full collection
    exactly once, and then closes the modal and forgets the contact. *)
Theorem handleConfirmDelete_outcomes (LocalTZA : Z -> bool -> Z)
  (Date_parse : string -> option Z) (now : Z) (b : Backend) (st : ViewState)
  (c : Contact) :
  contactToDelete st = Some c ->
  (forall e, delete_response b (id c) = Some e ->
     step LocalTZA Date_parse now b click_confirm st
     = (st, [delete_eq_id (id c); console_error "Error deleting contact:" e]))
  /\ (delete_response b (id c) = None ->
      deleteModalOpen (fst (step LocalTZA Date_parse now b click_confirm st))
      = false
      /\ contactToDelete (fst (step LocalTZA Date_parse now b click_confirm st))
         = None
      /\ HandlerWords.requests
           (snd (step LocalTZA Date_parse now b click_confirm st))
         = [delete_eq_id (id c); select_all]).
Proof.
  intros Hc. split.
  - intros e He. unfold step. cbn [handle].
    rewrite (run_handleConfirmDelete_error b st c e Hc He).
    unfold filterEffect. now rewrite deps_changed_refl.
  - intros He. unfold step. cbn [handle].
    rewrite (run_handleConfirmDelete_ok b st c Hc He). cbn [fst snd].
    destruct (filterEffect_modal LocalTZA Date_parse now st
                (setContactToDelete None
                   (setDeleteModalOpen false (fst (run (fetchContacts b) st)))))
      as [-> ->].
    repeat split.
    destruct (error (select_response b)) as [e|] eqn:E.
    + now rewrite (run_fetchContacts_error b st e E).
    + now rewrite (run_fetchContacts_ok b st E).
Qed.

Lemma handleConfirmDelete_outcomes_witness :
  step Samples.tz_minus_3h Samples.parse_sample Samples.sample_now
       Samples.failing_backend click_confirm Samples.confirming_delete
  = (Samples.confirming_delete,
     [delete_eq_id "2";
      console_error "Error deleting contact:" Samples.some_error])
  /\ deleteModalOpen
       (fst (step Samples.tz_minus_3h Samples.parse_sample Samples.sample_now
               (Samples.backend_with [Samples.ana]) click_confirm
               Samples.confirming_delete))
     = false.
Proof.
  assert (Hc : contactToDelete Samples.confirming_delete = Some Samples.bruno)
    by reflexivity.
  split.
  - now apply (handleConfirmDelete_outcomes Samples.tz_minus_3h
                 Samples.parse_sample Samples.sample_now
                 Samples.failing_backend Samples.confirming_delete
                 Samples.bruno Hc).
  - now apply (handleConfirmDelete_outcomes Samples.tz_minus_3h
                 Samples.parse_sample Samples.sample_now
                 (Samples.backend_with [Samples.ana])
                 Samples.confirming_delete Samples.bruno Hc).
Defined.

(** *** The filter effect resets the page *)

Lemma filterEffect_changed (LocalTZA : Z -> bool -> Z)
  (Date_parse : string -> option Z) (now : Z) (old new : ViewState) :
  inputs_changed old new ->
  filterEffect LocalTZA Date_parse now old new
  = applyFilters LocalTZA Date_parse now new.
Proof.
  intros H. apply deps_changed_iff in H. unfold filterEffect. now rewrite H.
Qed.

(** C6: whenever an event changes the search text, the date filter or the
    collection, the filtered view is recomputed from the new inputs and
    the current page is set to 1; typing a different search text, choosing
    a different date filter and a successful fetch are such events. *)
Theorem filter_change_resets_page (LocalTZA : Z -> bool -> Z)
  (Date_parse : string -> option Z) (now : Z) (b : Backend)
  (st : ViewState) :
  (forall ev,
     inputs_changed st (fst (run (handle b ev) st)) ->
     currentPage (fst (step LocalTZA Date_parse now b ev st)) = 1
     /\ filteredContacts (fst (step LocalTZA Date_parse now b ev st))
        = applyFilters_result LocalTZA Date_parse now
            (contacts (fst (run (handle b ev) st)))
            (searchQuery (fst (run (handle b ev) st)))
            (dateFilter (fst (run (handle b ev) st))))
  /\ (forall v, v <> searchQuery st ->
        inputs_changed st (fst (run (handle b (change_search v)) st))
        /\ currentPage
             (fst (step LocalTZA Date_parse now b (change_search v) st)) = 1
        /\ filteredContacts
             (fst (step LocalTZA Date_parse now b (change_search v) st))
           = applyFilters_result LocalTZA Date_parse now
               (contacts st) v (dateFilter st))
  /\ (forall f, f <> dateFilter st ->
        inputs_changed st (fst (run (handle b (select_filter f)) st))
        /\ currentPage
             (fst (step LocalTZA Date_parse now b (select_filter f) st)) = 1
        /\ filteredContacts
             (fst (step LocalTZA Date_parse now b (select_filter f) st))
           = applyFilters_result LocalTZA Date_parse now
               (contacts st) (searchQuery st) f)
  /\ (error (select_response b) = None ->
        inputs_changed st (fst (run (handle b click_refresh) st))
        /\ currentPage
             (fst (step LocalTZA Date_parse now b click_refresh st)) = 1
        /\ filteredContacts
             (fst (step LocalTZA Date_parse now b click_refresh st))
           = applyFilters_result LocalTZA Date_parse now
               (or_empty (data (select_response b)))
               (searchQuery st) (dateFilter st)).
Proof.
  assert (General : forall ev,
     inputs_changed st (fst (run (handle b ev) st)) ->
     currentPage (fst (step LocalTZA Date_parse now b ev st)) = 1
     /\ filteredContacts (fst (step LocalTZA Date_parse now b ev st))
        = applyFilters_result LocalTZA Date_parse now
            (contacts (fst (run (handle b ev) st)))
            (searchQuery (fst (run (handle b ev) st)))
            (dateFilter (fst (run (handle b ev) st)))).
  { intros ev H. unfold step.
    destruct (run (handle b ev) st) as [st1 trace]. cbn [fst] in *.
    rewrite (filterEffect_changed LocalTZA Date_parse now st st1 H).
    split; reflexivity. }
  split; [exact General|]. split; [|split].
  - intros v Hv.
    assert (H : inputs_changed st (fst (run (handle b (change_search v)) st)))
      by (right; left; simpl; congruence).
    split; [exact H|]. exact (General (change_search v) H).
  - intros f Hf.
    assert (H : inputs_changed st (fst (run (handle b (select_filter f)) st)))
      by (right; right; simpl; congruence).
    split; [exact H|]. exact (General (select_filter f) H).
  - intros E.
    assert (H : inputs_changed st (fst (run (handle b click_refresh) st))).
    { left. cbn [handle]. rewrite (run_fetchContacts_ok b st E). simpl. lia. }
    split; [exact H|].
    pose proof (General click_refresh H) as G. cbn [handle] in G.
    rewrite (run_fetchContacts_ok b st E) in G. exact G.
Qed.

Lemma filter_change_resets_page_witness :
  currentPage
    (fst (step Samples.tz_minus_3h Samples.parse_sample Samples.sample_now
            Samples.failing_backend (change_search "an")
            Samples.second_page)) = 1
  /\ currentPage
       (fst (step Samples.tz_minus_3h Samples.parse_sample Samples.sample_now
               Samples.failing_backend (select_filter week)
               Samples.second_page)) = 1
  /\ currentPage
       (fst (step Samples.tz_minus_3h Samples.parse_sample Samples.sample_now
               (Samples.backend_with [Samples.ana]) click_refresh
               Samples.second_page)) = 1.
Proof.
  split; [|split].
  - apply (filter_change_resets_page Samples.tz_minus_3h Samples.parse_sample
             Samples.sample_now Samples.failing_backend Samples.second_page).
    discriminate.
  - apply (filter_change_resets_page Samples.tz_minus_3h Samples.parse_sample
             Samples.sample_now Samples.failing_backend Samples.second_page).
    discriminate.
  - apply (filter_change_resets_page Samples.tz_minus_3h Samples.parse_sample
             Samples.sample_now (Samples.backend_with [Samples.ana])
             Samples.second_page).
    reflexivity.
Defined.

(** *** The current page and the page count *)

Lemma page_within_pages_same (st st' : ViewState) :
  filteredContacts st' = filteredContacts st ->
  currentPage st' = currentPage st ->
  page_within_pages st -> page_within_pages st'.
Proof.
  unfold page_within_pages, totalPages. intros -> ->. tauto.
Qed.

Lemma totalPages_positive (st : ViewState) :
  filteredContacts st <> [] -> 1 <= totalPages st.
Proof.
  intros Hne. unfold totalPages, JSArray.ceil_div, JSArray.len, itemsPerPage.
  destruct (filteredContacts st) as [|c l]; [contradiction|].
  cbn [List.length]. Z.div_mod_to_equations. lia.
Qed.

Lemma page_within_pages_applyFilters (LocalTZA : Z -> bool -> Z)
  (Date_parse : string -> option Z) (now : Z) (st : ViewState) :
  page_within_pages (applyFilters LocalTZA Date_parse now st).
Proof.
  split; [simpl; lia|]. intros Hne.
  apply totalPages_positive in Hne. simpl currentPage. exact Hne.
Qed.

(** fetchContacts touches neither the filtered view nor the page. *)
Lemma fetchContacts_view (b : Backend) (w : ViewState * list Effect) :
  filteredContacts (fst (snd (fetchContacts b w))) = filteredContacts (fst w)
  /\ currentPage (fst (snd (fetchContacts b w))) = currentPage (fst w).
Proof.
  unfold fetchContacts, bind, emit, set. simpl.
  now destruct (error (select_response b)).
Qed.

(** The handler of a gesture keeps the filtered view, and keeps the page
    within the pages. *)
Lemma gesture_keeps_page_within_pages (b : Backend) (ev : Event)
  (st : ViewState) :
  is_gesture ev = true ->
  page_within_pages st ->
  filteredContacts (fst (run (handle b ev) st)) = filteredContacts st
  /\ page_within_pages (fst (run (handle b ev) st)).
Proof.
  intros Hg Inv.
  assert (Same : forall st',
            filteredContacts st' = filteredContacts st ->
            currentPage st' = currentPage st ->
            filteredContacts st' = filteredContacts st
            /\ page_within_pages st').
  { intros st' Hf Hp. split; [exact Hf|].
    now apply (page_within_pages_same st). }
  destruct ev as [v|f| |c| | |c checked| |index| | |user|page];
    try discriminate Hg; cbn [handle].
  - now apply Same.
  - now apply Same.
  - unfold run. destruct (fetchContacts_view b (st, [])). now apply Same.
  - now apply Same.
  - now apply Same.
  - unfold run, handleConfirmDelete, bind, get, set, emit. simpl.
    destruct (contactToDelete st) as [c|]; [|now apply Same].
    simpl. destruct (delete_response b (id c)); [now apply Same|].
    destruct (fetchContacts_view b (st, [delete_eq_id (id c)])) as [Hf Hp].
    destruct (fetchContacts b (st, [delete_eq_id (id c)])) as [u [st1 tr]].
    simpl in Hf, Hp.
    apply (Same (setContactToDelete None (setDeleteModalOpen false st1)));
      assumption.
  - unfold run, handleBotToggle, bind, emit. simpl.
    destruct (update_response b checked (id c)); [now apply Same|].
    destruct (fetchContacts_view b
                (st, [update_bot_enabled_eq_id checked (id c)])) as [Hf Hp].
    now apply Same.
  - (* previous page *)
    unfold run, bind, get. simpl.
    destruct (Z.eqb_spec (currentPage st) 1) as [E|E]; [now apply Same|].
    simpl. split; [reflexivity|].
    destruct Inv as [H1 H2]. split; simpl; [lia|].
    intros Hne. specialize (H2 Hne). unfold totalPages in *. simpl. lia.
  - (* a page button *)
    unfold run, bind, get. simpl.
    destruct (Z.leb_spec 0 index);
      destruct (Z.ltb_spec index (totalPages st));
      simpl; try now apply Same.
    split; [reflexivity|]. split; simpl; [lia|].
    intros _. unfold totalPages in *. simpl. lia.
  - (* next page *)
    unfold run, bind, get. simpl.
    destruct (Z.eqb_spec (currentPage st) (totalPages st)) as [E|E];
      [now apply Same|].
    simpl. split; [reflexivity|].
    destruct Inv as [H1 H2]. split; simpl; [lia|].
    intros Hne. specialize (H2 Hne). unfold totalPages in *. simpl. lia.
  - now apply Same.
  - unfold run, userEffect.
    destruct (negb (is_some user)); [now apply Same|].
    destruct (fetchContacts_view b (st, [])). now apply Same.
Qed.

(** C7, as stated, fails: goToPage stores any page number.  After the five
    sample contacts were fetched there is one page, and goToPage(5) leaves
    the current page at 5. *)
Lemma goToPage_unclamped_counterexample :
  fst (step Samples.tz_minus_3h Samples.parse_sample Samples.sample_now
         (Samples.backend_with Samples.sample_contacts) click_refresh
         initialState) = Samples.five_contacts
  /\ reachable Samples.tz_minus_3h Samples.parse_sample
       (fst (step Samples.tz_minus_3h Samples.parse_sample Samples.sample_now
               Samples.failing_backend (call_goToPage 5)
               Samples.five_contacts))
  /\ ~ page_in_range
         (fst (step Samples.tz_minus_3h Samples.parse_sample
                 Samples.sample_now Samples.failing_backend
                 (call_goToPage 5) Samples.five_contacts)).
Proof.
  assert (E : fst (step Samples.tz_minus_3h Samples.parse_sample
                     Samples.sample_now
                     (Samples.backend_with Samples.sample_contacts)
                     click_refresh initialState) = Samples.five_contacts)
    by reflexivity.
  split; [exact E|]. split.
  - apply reachable_step. rewrite <- E. apply reachable_step, reachable_init.
  - unfold page_in_range. vm_compute. intros [_ H]. now apply H.
Qed.

(** With an empty filtered view there are 0 pages, and the button of the
    next page, disabled when the current page equals the page count, is
    enabled on page 1. *)
Example next_page_of_empty_view :
  totalPages initialState = 0
  /\ currentPage
       (fst (step Samples.tz_minus_3h Samples.parse_sample Samples.sample_now
               Samples.failing_backend click_next initialState)) = 2.
Proof. split; reflexivity. Qed.

(** C7, amended: in every state reached through the gestures of the page
    (filter changes, fetches, and the page buttons, which are disabled at
    their bounds), the current page is at least 1 and, when the filtered
    view is not empty, at most the page count. *)
Theorem page_within_pages_by_gestures (LocalTZA : Z -> bool -> Z)
  (Date_parse : string -> option Z) (st : ViewState) :
  reachable_by_gestures LocalTZA Date_parse st -> page_within_pages st.
Proof.
  induction 1 as [|now b ev st Hreach IH Hg].
  - split; [simpl; lia | intros H; now contradiction H].
  - unfold step.
    destruct (gesture_keeps_page_within_pages b ev st Hg IH) as [_ Inv].
    destruct (run (handle b ev) st) as [st1 trace]. cbn [fst] in *.
    unfold filterEffect. destruct (deps_changed st st1).
    + apply page_within_pages_applyFilters.
    + exact Inv.
Qed.

Lemma page_within_pages_by_gestures_witness :
  page_within_pages
    (fst (step Samples.tz_minus_3h Samples.parse_sample Samples.sample_now
            (Samples.backend_with Samples.sample_contacts) click_refresh
            initialState)).
Proof.
  apply (page_within_pages_by_gestures Samples.tz_minus_3h
           Samples.parse_sample).
  apply gestures_step; [apply gestures_init | reflexivity].
Defined.

End ViewSpec.

(* ===================================================================== *)
(** * Part III: further properties of the code                             *)
(* ===================================================================== *)

(** ** The route guard never answers its own redirect with a redirect *)

Module GuardMore.
Import JSString Middleware.

(** X1: when the guard redirects a request, the request for the target of
    the redirect, with the same session, is let through: no redirect
    loop. *)
Theorem middleware_redirect_settles (session : option Session)
  (req : NextRequest) (target : string) :
  middleware session req = redirect target ->
  middleware session (mkRequest target) = next.
Proof.
  unfold middleware. destruct session as [s|]; cbn [is_some negb andb].
  - destruct (String.eqb (pathname req) "/login"
              || String.eqb (pathname req) "/"); [|discriminate].
    intros H. injection H as <-. reflexivity.
  - destruct (startsWith (pathname req) "/dashboard"); [|discriminate].
    intros H. injection H as <-. reflexivity.
Qed.

Lemma middleware_redirect_settles_witness :
  middleware None (mkRequest "/dashboard/contacts") = redirect "/login"
  /\ middleware None (mkRequest "/login") = next.
Proof.
  assert (H : middleware None (mkRequest "/dashboard/contacts")
              = redirect "/login") by reflexivity.
  split; [exact H|].
  exact (middleware_redirect_settles None (mkRequest "/dashboard/contacts")
           "/login" H).
Defined.

End GuardMore.

(** ** The session store *)

Module StoreSpec.
Import SessionStore StoreWords.

Lemma after_snoc (changes : list AuthStateChange) (change : AuthStateChange) :
  after (changes ++ [change]) = onAuthStateChange change (after changes).
Proof. unfold after. now rewrite fold_left_app. Qed.

(** X2: after any sequence of notifications the store holds the session of
    the latest one (nothing when there was none yet, or when the latest
    carried no session), and the user it holds is the user of that
    session: the two are set together and cleared together. *)
Theorem store_mirrors_latest_session (changes : list AuthStateChange) :
  session (after changes) = latest_session changes
  /\ user (after changes) = option_map session_user (session (after changes)).
Proof.
  destruct changes as [|c0 cs] using rev_ind; [split; reflexivity|].
  rewrite after_snoc. unfold latest_session. rewrite rev_unit.
  unfold onAuthStateChange. destruct (snd c0); split; reflexivity.
Qed.

End StoreSpec.

(** ** formatPhoneNumber and the digits of a number *)

Module PhoneMore.
Import JSString Phone StringFacts PhoneWords PhoneSpec.

Lemma remove_non_digits_app (s t : string) :
  remove_non_digits (s ++ t) = remove_non_digits s ++ remove_non_digits t.
Proof.
  induction s as [|c s IH]; simpl; [reflexivity|].
  destruct (is_digit c); simpl; now rewrite IH.
Qed.

Lemma remove_non_digits_digits (s : string) :
  all_digits s = true -> remove_non_digits s = s.
Proof.
  induction s as [|c s IH]; simpl; [reflexivity|].
  rewrite andb_true_iff. intros [Hc Hs]. now rewrite Hc, IH.
Qed.

Lemma remove_non_digits_replace_d_4_4 (s : string) :
  all_digits s = true -> remove_non_digits (replace_d_4_4 s) = s.
Proof.
  intros Hs. unfold replace_d_4_4.
  destruct (len s =? 9) eqn:E; cbn [andb];
    [|now apply remove_non_digits_digits].
  rewrite Hs. change 9 with (Z.of_nat 9) in E. rewrite len_eqb in E.
  apply Nat.eqb_eq in E.
  destruct s as [|d1 [|d2 [|d3 [|d4 [|d5 [|d6 [|d7 [|d8 [|d9 [|]]]]]]]]]];
    try discriminate E.
  simpl in Hs. rewrite !andb_true_iff in Hs.
  destruct Hs as (H1 & H2 & H3 & H4 & H5 & H6 & H7 & H8 & H9 & _).
  match goal with
  | |- remove_non_digits ?x = _ =>
      let v := eval vm_compute in x in change x with v
  end.
  cbn [remove_non_digits].
  now rewrite H1, H2, H3, H4, H5, H6, H7, H8, H9.
Qed.

Lemma remove_non_digits_replace_4_4 (s : string) :
  all_digits s = true -> remove_non_digits (replace_4_4 s) = s.
Proof.
  intros Hs. unfold replace_4_4.
  destruct (len s =? 8) eqn:E; cbn [andb];
    [|now apply remove_non_digits_digits].
  rewrite Hs. change 8 with (Z.of_nat 8) in E. rewrite len_eqb in E.
  apply Nat.eqb_eq in E.
  destruct s as [|d1 [|d2 [|d3 [|d4 [|d5 [|d6 [|d7 [|d8 [|]]]]]]]]];
    try discriminate E.
  simpl in Hs. rewrite !andb_true_iff in Hs.
  destruct Hs as (H1 & H2 & H3 & H4 & H5 & H6 & H7 & H8 & _).
  match goal with
  | |- remove_non_digits ?x = _ =>
      let v := eval vm_compute in x in change x with v
  end.
  cbn [remove_non_digits].
  now rewrite H1, H2, H3, H4, H5, H6, H7, H8.
Qed.

(** The digits of the display form are the local digits. *)
Lemma digits_of_formatted (number : string) :
  number <> "" ->
  remove_non_digits (formatPhoneNumber number) = local_digits number.
Proof.
  intros Hne. rewrite (formatPhoneNumber_parts number Hne).
  assert (Hsub : all_digits (subscriber number) = true)
    by (apply all_digits_drop, all_digits_local).
  assert (Haa : all_digits (area_code number) = true)
    by (apply all_digits_take, all_digits_local).
  rewrite !remove_non_digits_app.
  rewrite (remove_non_digits_digits _ Haa).
  change (remove_non_digits "(") with "".
  change (remove_non_digits ") ") with "".
  replace (remove_non_digits
             (if Nat.eqb (String.length (subscriber number)) 9
              then replace_d_4_4 (subscriber number)
              else if Nat.eqb (String.length (subscriber number)) 8
                   then replace_4_4 (subscriber number)
                   else subscriber number))
    with (subscriber number).
  - simpl. apply take_drop.
  - destruct (Nat.eqb _ 9);
      [now rewrite remove_non_digits_replace_d_4_4|].
    destruct (Nat.eqb _ 8);
      [now rewrite remove_non_digits_replace_4_4|].
    now rewrite remove_non_digits_digits.
Qed.

(** The display form is made from the local digits alone. *)
Lemma formatPhoneNumber_local_digits (s t : string) :
  s <> "" -> t <> "" -> local_digits s = local_digits t ->
  formatPhoneNumber s = formatPhoneNumber t.
Proof.
  intros Hs Ht E.
  rewrite (formatPhoneNumber_parts s Hs), (formatPhoneNumber_parts t Ht).
  unfold area_code, subscriber. now rewrite E.
Qed.

Lemma formatPhoneNumber_nonempty (number : string) :
  number <> "" -> formatPhoneNumber number <> "".
Proof.
  intros Hne. rewrite (formatPhoneNumber_parts number Hne). discriminate.
Qed.

(** X3: formatting neither loses nor invents a digit: for a non-empty
    input, the digits of the display form, in their order, are the digits
    of the input without the leading country code "55" (when it has one);
    in particular the display form of a non-empty input is never empty. *)
Theorem formatPhoneNumber_keeps_digits (number : string) :
  number <> "" ->
  remove_non_digits (formatPhoneNumber number) = local_digits number
  /\ formatPhoneNumber number <> "".
Proof.
  intros Hne. split;
    [now apply digits_of_formatted | now apply formatPhoneNumber_nonempty].
Qed.

Lemma formatPhoneNumber_keeps_digits_witness :
  remove_non_digits (formatPhoneNumber "+55 (11) 98765-4321") = "11987654321".
Proof.
  apply (formatPhoneNumber_keeps_digits "+55 (11) 98765-4321"). discriminate.
Defined.

(** X4: a number is displayed the same with and without the country code:
    when the digits of [number] do not themselves start with "55", putting
    any prefix whose digits are "55" (such as "+55 ") in front of it does
    not change the display form. *)
Theorem formatPhoneNumber_country_code (prefix number : string) :
  remove_non_digits prefix = "55" ->
  number <> "" ->
  startsWith (remove_non_digits number) "55" = false ->
  formatPhoneNumber (prefix ++ number) = formatPhoneNumber number.
Proof.
  intros Hp Hne H55.
  apply formatPhoneNumber_local_digits; [|exact Hne|].
  - destruct prefix; [discriminate Hp | discriminate].
  - unfold local_digits. rewrite remove_non_digits_app, Hp, H55.
    reflexivity.
Qed.

Lemma formatPhoneNumber_country_code_witness :
  formatPhoneNumber ("+55 " ++ "(11) 98765-4321")
  = formatPhoneNumber "(11) 98765-4321".
Proof.
  apply formatPhoneNumber_country_code;
    [reflexivity | discriminate | reflexivity].
Defined.



(** Without that condition the second pass removes "55" once more. *)
Example formatPhoneNumber_twice_area_55 :
  formatPhoneNumber "5555999998888" = "(55) 9 9999-8888"
  /\ formatPhoneNumber "(55) 9 9999-8888" = "(99) 9998888".
Proof. split; reflexivity. Qed.

End PhoneMore.

(** ** applyFilters: the search text and the dates *)

Module FilterMore.
Import JSString Dashboard StringFacts DateFacts FilterWords DateWords.
Import FilterSpec ZoneWords.


Lemma truthy_toLowerCase (s : string) : truthy (toLowerCase s) = truthy s.
Proof. now destruct s. Qed.




Section Environment.
Variable LocalTZA : Z -> bool -> Z.
Variable Date_parse : string -> option Z.

(** X6: the case of the search text does not matter: two search texts
    with the same lower-case form give the same filtered view. *)
Theorem applyFilters_search_text_case (now : Z) (contacts : list Contact)
  (search1 search2 : string) (f : DateFilter) :
  toLowerCase search1 = toLowerCase search2 ->
  applyFilters_result LocalTZA Date_parse now contacts search1 f
  = applyFilters_result LocalTZA Date_parse now contacts search2 f.
Proof.
  intros E. unfold applyFilters_result.
  rewrite <- (truthy_toLowerCase search1), <- (truthy_toLowerCase search2).
  now rewrite E.
Qed.


(** X8: a contact whose updated_at is not a date is shown under the filter
    "all" only: it passes none of "today", "week" and "month", whatever
    the clock reads. *)
Theorem applyFilters_invalid_date (now : Z) (contacts : list Contact)
  (search : string) (f : DateFilter) (c : Contact) :
  Date_parse (updated_at c) = None ->
  (f <> all ->
   ~ In c (applyFilters_result LocalTZA Date_parse now contacts search f))
  /\ (In c (applyFilters_result LocalTZA Date_parse now contacts search all)
      <-> In c contacts
          /\ (search <> "" -> search_predicate_stored_phone search c)).
Proof.
  intros Hp. split.
  - intros Hf Hin. apply applyFilters_result_In in Hin.
    destruct Hin as [_ [_ Hd]].
    destruct f; [now apply Hf | | |];
      destruct Hd as [b [t [_ [Ht _]]]]; congruence.
  - rewrite applyFilters_result_In. simpl. tauto.
Qed.

End Environment.

Lemma applyFilters_search_text_case_witness :
  applyFilters_result Samples.tz_minus_3h Samples.parse_sample
    Samples.sample_now Samples.sample_contacts "ANA" all
  = applyFilters_result Samples.tz_minus_3h Samples.parse_sample
      Samples.sample_now Samples.sample_contacts "ana" all.
Proof. now apply applyFilters_search_text_case. Defined.

Lemma applyFilters_invalid_date_witness :
  ~ In Samples.eva
      (applyFilters_result Samples.tz_minus_3h Samples.parse_sample
         Samples.sample_now Samples.sample_contacts "" month).
Proof.
  apply (applyFilters_invalid_date Samples.tz_minus_3h Samples.parse_sample
           Samples.sample_now Samples.sample_contacts "" month Samples.eva);
    [reflexivity | discriminate].
Defined.

Section FixedZone.
Variable offset : Z.
Variable Date_parse : string -> option Z.



End FixedZone.


End FilterMore.

(** ** Pagination: what the pages hold *)

Module PageMore.
Import Dashboard DashboardView PageWords PageSpec.

Lemma len_nonneg {A : Type} (l : list A) : 0 <= JSArray.len l.
Proof. unfold JSArray.len. lia. Qed.

Lemma len_firstn_skipn {A : Type} (l : list A) (n k : nat) :
  JSArray.len (firstn n (skipn k l))
  = Z.min (Z.of_nat n) (Z.max 0 (JSArray.len l - Z.of_nat k)).
Proof.
  unfold JSArray.len. rewrite length_firstn, length_skipn. lia.
Qed.

(** The length of a page, for a page number that is at least 1. *)
Lemma len_currentContacts (st : ViewState) :
  1 <= currentPage st ->
  JSArray.len (currentContacts st)
  = Z.max 0 (Z.min 10 (JSArray.len (filteredContacts st)
                       - (currentPage st - 1) * 10)).
Proof.
  intros Hp. unfold currentContacts, endIndex, startIndex, itemsPerPage.
  rewrite slice_firstn_skipn by lia. rewrite len_firstn_skipn.
  pose proof (len_nonneg (filteredContacts st)). lia.
Qed.

Lemma firstn_add {A : Type} (a b : nat) (l : list A) :
  firstn (a + b) l = (firstn a l ++ firstn b (skipn a l))%list.
Proof.
  revert l. induction a as [|a IH]; intros l; [reflexivity|].
  destruct l as [|x l]; simpl.
  - now rewrite firstn_nil.
  - now rewrite IH.
Qed.

(** The first [m] pages, one after the other, are the first [10 * m]
    elements. *)
Lemma concat_pages {A : Type} (l : list A) (m : nat) :
  List.concat (map (fun i => firstn 10 (skipn (i * 10) l)) (seq 0 m))
  = firstn (m * 10) l.
Proof.
  induction m as [|m IH]; [reflexivity|].
  rewrite seq_S, map_app, concat_app, IH.
  cbn [map List.concat Nat.add]. rewrite app_nil_r.
  replace (S m * 10)%nat with (m * 10 + 10)%nat by lia.
  now rewrite firstn_add.
Qed.

Lemma currentContacts_of_button (st : ViewState) (i : nat) :
  currentContacts (setCurrentPage (Z.of_nat i + 1) st)
  = firstn 10 (skipn (i * 10) (filteredContacts st)).
Proof.
  unfold currentContacts, endIndex, startIndex, itemsPerPage. simpl.
  rewrite slice_firstn_skipn by lia.
  replace (Z.to_nat ((Z.of_nat i + 1 - 1) * 10 + 10
                     - (Z.of_nat i + 1 - 1) * 10)) with 10%nat by lia.
  replace (Z.to_nat ((Z.of_nat i + 1 - 1) * 10)) with (i * 10)%nat by lia.
  reflexivity.
Qed.

(** X10: the pages of the page buttons, taken in the order of the buttons,
    are the filtered view: every contact of the view is shown on exactly
    one page, in its place. *)
Theorem pages_partition_filtered_view (st : ViewState) :
  List.concat
    (map (fun index => currentContacts (setCurrentPage (index + 1) st))
         (pageButtons st))
  = filteredContacts st.
Proof.
  unfold pageButtons. rewrite map_map.
  rewrite (map_ext _
             (fun i => firstn 10 (skipn (i * 10) (filteredContacts st))))
    by (intros i; apply currentContacts_of_button).
  rewrite concat_pages. apply firstn_all2.
  pose proof (totalPages_is_ceiling st) as [_ H].
  unfold JSArray.len, itemsPerPage in H. lia.
Qed.

(** X11: a page never has more than 10 contacts; for a page number that is
    at least 1, every page before the last has exactly 10, the last page
    has what remains (between 1 and 10), and a page after the last is
    empty. *)
Theorem currentContacts_size (st : ViewState) :
  JSArray.len (currentContacts st) <= 10
  /\ (1 <= currentPage st ->
      (currentPage st < totalPages st ->
       JSArray.len (currentContacts st) = 10)
      /\ (currentPage st = totalPages st ->
          1 <= JSArray.len (currentContacts st) <= 10
          /\ JSArray.len (currentContacts st)
             = JSArray.len (filteredContacts st) - (currentPage st - 1) * 10)
      /\ (totalPages st < currentPage st -> currentContacts st = [])).
Proof.
  split.
  - unfold currentContacts, endIndex, startIndex, itemsPerPage,
      JSArray.slice.
    set (n := JSArray.len (filteredContacts st)).
    set (s := (currentPage st - 1) * 10).
    assert (Hn : 0 <= n) by apply len_nonneg.
    unfold JSArray.len at 1. rewrite length_firstn.
    destruct (Z.ltb_spec s 0); destruct (Z.ltb_spec (s + 10) 0); lia.
  - intros Hp. pose proof (len_currentContacts st Hp) as Hlen.
    pose proof (totalPages_is_ceiling st) as [Hlo Hhi].
    unfold itemsPerPage in *.
    split; [|split].
    + intros Hlt. lia.
    + intros Heq. lia.
    + intros Hgt.
      assert (H0 : JSArray.len (currentContacts st) = 0) by lia.
      unfold JSArray.len in H0.
      destruct (currentContacts st); [reflexivity | simpl in H0; lia].
Qed.

Lemma currentContacts_size_witness :
  JSArray.len (currentContacts Samples.second_page) = 5
  /\ currentContacts (setCurrentPage 3 Samples.second_page) = [].
Proof.
  assert (Hp : 1 <= currentPage Samples.second_page) by (simpl; lia).
  assert (H3 : 1 <= currentPage (setCurrentPage 3 Samples.second_page))
    by (simpl; lia).
  destruct (currentContacts_size Samples.second_page) as [_ H].
  destruct (H Hp) as [_ [Hlast _]].
  destruct (currentContacts_size (setCurrentPage 3 Samples.second_page))
    as [_ H'].
  destruct (H' H3) as [_ [_ Hpast]].
  split.
  - destruct (Hlast eq_refl) as [_ E]. exact E.
  - apply Hpast. reflexivity.
Defined.

(** X12: the counter under the table ("Mostrando a-b de n") agrees with
    the table: for a page number that is at least 1 and does not start
    after the end of the filtered view, the page shows b - a + 1 contacts,
    and b never exceeds n. *)
Theorem showing_counter_matches_page (st : ViewState) :
  1 <= currentPage st ->
  startIndex st <= showingOf st ->
  JSArray.len (currentContacts st) = showingTo st - showingFrom st + 1
  /\ showingTo st <= showingOf st.
Proof.
  intros Hp Hstart. pose proof (len_currentContacts st Hp) as Hlen.
  unfold showingTo, showingFrom, showingOf, endIndex, startIndex,
    itemsPerPage in *.
  lia.
Qed.

Lemma showing_counter_matches_page_witness :
  showingFrom Samples.second_page = 11
  /\ showingTo Samples.second_page = 15
  /\ JSArray.len (currentContacts Samples.second_page) = 15 - 11 + 1.
Proof.
  split; [reflexivity|]. split; [reflexivity|].
  apply (showing_counter_matches_page Samples.second_page);
    vm_compute; discriminate.
Defined.

(** After the end of the view the counter and the table part ways: the
    table is empty while the counter reads "21-15 de 15". *)
Example showing_counter_past_the_end :
  currentContacts (setCurrentPage 3 Samples.second_page) = []
  /\ showingFrom (setCurrentPage 3 Samples.second_page) = 21
  /\ showingTo (setCurrentPage 3 Samples.second_page) = 15.
Proof. repeat split. Qed.

End PageMore.

(** ** The handlers: requests, the collection and the modal *)

Module ViewMore.
Import Dashboard DashboardView PageWords HandlerWords ViewWords ViewSpec.
Import FilterWords.

(** Unfold a handler and split on everything it branches on. *)
Ltac handler_cases :=
  unfold run, handle, handleDeleteClick, handleConfirmDelete,
    handleBotToggle, handleLogout, userEffect, goToPage, fetchContacts,
    bind, get, set, emit, ret;
  simpl;
  repeat match goal with
         | |- context [match error ?x with _ => _ end] =>
             destruct (error x) eqn:?; simpl
         | |- context [match ?x with _ => _ end] =>
             destruct x eqn:?; simpl
         end.

(** What a handler can do to the state: it never writes the filtered view,
    it keeps the search text and the date filter unless it is their own
    event, and it replaces the collection only together with its
    identity. *)
Lemma handle_frame (b : Backend) (ev : Event) (st : ViewState) :
  filteredContacts (fst (run (handle b ev) st)) = filteredContacts st
  /\ (contacts_ref (fst (run (handle b ev) st)) = contacts_ref st ->
      contacts (fst (run (handle b ev) st)) = contacts st).
Proof.
  destruct ev; handler_cases; simpl;
    (split; [reflexivity | intros H; try reflexivity; lia]).
Qed.

(** The collection after a handler is the one before, or the rows of a
    successful fetch that the handler made. *)
Lemma handle_contacts (b : Backend) (ev : Event) (st : ViewState) :
  contacts (fst (run (handle b ev) st)) = contacts st
  \/ (error (select_response b) = None
      /\ In select_all (snd (run (handle b ev) st))
      /\ contacts (fst (run (handle b ev) st))
         = or_empty (data (select_response b))).
Proof.
  destruct ev; handler_cases; simpl; auto;
    right; repeat split; auto.
Qed.

Section Environment.
Variable LocalTZA : Z -> bool -> Z.
Variable Date_parse : string -> option Z.

Lemma applyFilters_result_Subseq (now : Z) (contacts : list Contact)
  (search : string) (f : DateFilter) :
  Subseq (applyFilters_result LocalTZA Date_parse now contacts search f)
         contacts.
Proof.
  unfold applyFilters_result.
  assert (H : Subseq (if JSString.truthy search
                      then filter (search_filter
                                     (JSString.toLowerCase search)) contacts
                      else contacts) contacts).
  { destruct (JSString.truthy search);
      [apply FilterSpec.Subseq_filter | apply FilterSpec.Subseq_refl]. }
  destruct f; try exact H;
    (eapply FilterSpec.Subseq_trans;
     [apply FilterSpec.Subseq_filter | exact H]).
Qed.

Lemma step_fst (now : Z) (b : Backend) (ev : Event) (st : ViewState) :
  fst (step LocalTZA Date_parse now b ev st)
  = filterEffect LocalTZA Date_parse now st (fst (run (handle b ev) st)).
Proof. unfold step. now destruct (run (handle b ev) st). Qed.

Lemma step_snd (now : Z) (b : Backend) (ev : Event) (st : ViewState) :
  snd (step LocalTZA Date_parse now b ev st) = snd (run (handle b ev) st).
Proof. unfold step. now destruct (run (handle b ev) st). Qed.

Lemma filterEffect_inputs (now : Z) (old new : ViewState) :
  contacts (filterEffect LocalTZA Date_parse now old new) = contacts new
  /\ searchQuery (filterEffect LocalTZA Date_parse now old new)
     = searchQuery new
  /\ dateFilter (filterEffect LocalTZA Date_parse now old new)
     = dateFilter new.
Proof. unfold filterEffect. now destruct (deps_changed old new). Qed.

(** X13: the collection in memory is only ever replaced by a successful
    fetch: whenever an event leaves a different collection, the handler
    requested the full collection, the request succeeded, and the new
    collection is the rows received (or the empty list for no rows). *)
Theorem collection_replaced_only_by_fetch (now : Z) (b : Backend)
  (ev : Event) (st : ViewState) :
  contacts (fst (step LocalTZA Date_parse now b ev st)) <> contacts st ->
  error (select_response b) = None
  /\ In select_all (snd (step LocalTZA Date_parse now b ev st))
  /\ contacts (fst (step LocalTZA Date_parse now b ev st))
     = or_empty (data (select_response b)).
Proof.
  rewrite step_fst, step_snd.
  destruct (filterEffect_inputs now st (fst (run (handle b ev) st)))
    as [-> _].
  intros Hne. destruct (handle_contacts b ev st) as [H|H];
    [contradiction | exact H].
Qed.

(** X14: the filtered view is never out of step with its inputs: in every
    reachable state it is the result of applyFilters on the collection,
    the search text and the date filter of that state, at some reading of
    the clock; so it is always the collection with some contacts
    removed. *)
Theorem filtered_view_follows_inputs (st : ViewState) :
  reachable LocalTZA Date_parse st ->
  (exists now,
     filteredContacts st
     = applyFilters_result LocalTZA Date_parse now
         (contacts st) (searchQuery st) (dateFilter st))
  /\ Subseq (filteredContacts st) (contacts st).
Proof.
  intros Hreach.
  assert (Hex : exists now,
     filteredContacts st
     = applyFilters_result LocalTZA Date_parse now
         (contacts st) (searchQuery st) (dateFilter st)).
  { induction Hreach as [|now b ev st Hreach [now0 IH]].
    - now exists 0.
    - rewrite step_fst. unfold filterEffect.
      destruct (deps_changed st (fst (run (handle b ev) st))) eqn:E.
      + now exists now.
      + exists now0.
        destruct (handle_frame b ev st) as [Hf Hc].
        unfold deps_changed in E. apply negb_false_iff in E.
        rewrite !andb_true_iff in E. destruct E as [[Er Es] Ed].
        apply Nat.eqb_eq in Er. apply String.eqb_eq in Es.
        apply DateFilter_eqb_eq in Ed.
        rewrite Hf, <- Es, <- Ed, (Hc (eq_sym Er)). exact IH. }
  split; [exact Hex|].
  destruct Hex as [now ->]. apply applyFilters_result_Subseq.
Qed.

(** X15: a request that changes the store is always the one the user
    asked for: a delete request is only issued by the confirmation, for
    the id of the contact that was selected, and an update request only by
    the switch of a contact, for the id of that contact and the value of
    the switch. *)
Theorem mutations_are_scoped (now : Z) (b : Backend) (ev : Event)
  (st : ViewState) :
  (forall i,
     In (delete_eq_id i) (snd (step LocalTZA Date_parse now b ev st)) ->
     ev = click_confirm
     /\ exists c, contactToDelete st = Some c /\ id c = i)
  /\ (forall v i,
        In (update_bot_enabled_eq_id v i)
           (snd (step LocalTZA Date_parse now b ev st)) ->
        exists c, ev = toggle_bot c v /\ id c = i).
Proof.
  rewrite step_snd. split.
  - intros i. destruct ev; handler_cases; simpl; intros H;
      repeat (destruct H as [H|H]; try discriminate H); try contradiction.
    all: injection H as <-; split; [reflexivity | eauto].
  - intros v i. destruct ev; handler_cases; simpl; intros H;
      repeat (destruct H as [H|H]; try discriminate H); try contradiction.
    all: injection H as <- <-; eauto.
Qed.

Lemma handle_modal_has_contact (b : Backend) (ev : Event) (st : ViewState) :
  modal_has_contact st -> modal_has_contact (fst (run (handle b ev) st)).
Proof.
  unfold modal_has_contact.
  destruct ev; handler_cases; simpl; intros Inv H;
    try discriminate; auto; try congruence;
    match goal with
    | E : contactToDelete _ = None |- _ => rewrite E; auto
    end.
Qed.

(** X16: in every reachable state, an open confirmation modal has a
    selected contact: the confirmation always has something to delete. *)
Theorem modal_open_has_contact (st : ViewState) :
  reachable LocalTZA Date_parse st -> modal_has_contact st.
Proof.
  induction 1 as [|now b ev st Hreach IH].
  - intros H. discriminate H.
  - rewrite step_fst.
    pose proof (handle_modal_has_contact b ev st IH) as Inv.
    unfold modal_has_contact in *.
    destruct (filterEffect_modal LocalTZA Date_parse now st
                (fst (run (handle b ev) st))) as [-> ->].
    exact Inv.
Qed.

(** X17: switching the bot of a contact: when the update request fails,
    the handler logs the error and the state is as before; when it
    succeeds, the full collection is requested exactly once, and if that
    succeeds too the collection is replaced and the current page is back
    at 1, while a failed refetch leaves the state as before. *)
Theorem handleBotToggle_outcomes (now : Z) (b : Backend) (st : ViewState)
  (c : Contact) (checked : bool) :
  (forall e, update_response b checked (id c) = Some e ->
     step LocalTZA Date_parse now b (toggle_bot c checked) st
     = (st, [update_bot_enabled_eq_id checked (id c);
             console_error "Error updating contact:" e]))
  /\ (update_response b checked (id c) = None ->
      requests
        (snd (step LocalTZA Date_parse now b (toggle_bot c checked) st))
      = [update_bot_enabled_eq_id checked (id c); select_all]
      /\ (error (select_response b) = None ->
          contacts
            (fst (step LocalTZA Date_parse now b (toggle_bot c checked) st))
          = or_empty (data (select_response b))
          /\ currentPage
               (fst (step LocalTZA Date_parse now b (toggle_bot c checked)
                       st)) = 1)
      /\ (forall e, error (select_response b) = Some e ->
          fst (step LocalTZA Date_parse now b (toggle_bot c checked) st)
          = st)).
Proof.
  split.
  - intros e He. unfold step, run. cbn [handle].
    unfold handleBotToggle, bind, emit. simpl. rewrite He. simpl.
    unfold filterEffect. now rewrite deps_changed_refl.
  - intros He. unfold step, run. cbn [handle].
    unfold handleBotToggle, fetchContacts, bind, emit, set. simpl.
    rewrite He. simpl.
    destruct (error (select_response b)) as [e|] eqn:E; simpl.
    + unfold filterEffect. rewrite deps_changed_refl.
      split; [reflexivity|]. split; [discriminate | reflexivity].
    + assert (Hd : deps_changed st
                     (setContacts (or_empty (data (select_response b))) st)
                   = true).
      { apply deps_changed_iff. left. simpl. lia. }
      unfold filterEffect. rewrite Hd.
      split; [reflexivity|]. split; [|discriminate].
      intros _. split; reflexivity.
Qed.

Lemma step_goToPage (now : Z) (st : ViewState) (page : Z) :
  filterEffect LocalTZA Date_parse now st (setCurrentPage page st)
  = setCurrentPage page st.
Proof.
  unfold filterEffect.
  replace (deps_changed st (setCurrentPage page st)) with false;
    [reflexivity|].
  symmetry. apply (deps_changed_refl st).
Qed.

(** X18: the buttons of the previous and of the next page undo each other:
    from a page that is not the last, "next" and then "previous" lead back
    to the same state, and from a page that is not the first (and not
    after the last), "previous" and then "next" do. *)
Theorem next_previous_round_trip (now1 now2 : Z) (b1 b2 : Backend)
  (st : ViewState) :
  (1 <= currentPage st -> currentPage st <> totalPages st ->
   fst (step LocalTZA Date_parse now2 b2 click_previous
          (fst (step LocalTZA Date_parse now1 b1 click_next st))) = st)
  /\ (currentPage st <> 1 -> currentPage st - 1 <> totalPages st ->
      fst (step LocalTZA Date_parse now2 b2 click_next
             (fst (step LocalTZA Date_parse now1 b1 click_previous st)))
      = st).
Proof.
  split; intros H1 H2.
  - rewrite (step_fst now1). unfold run at 1. cbn [handle].
    unfold bind, get, goToPage, set, ret. cbn [fst snd].
    destruct (Z.eqb_spec (currentPage st) (totalPages st)); [contradiction|].
    cbn [fst snd]. rewrite step_goToPage.
    rewrite (step_fst now2). unfold run at 1. cbn [handle].
    unfold bind, get, goToPage, set, ret. cbn [fst snd].
    change (currentPage (setCurrentPage (currentPage st + 1) st))
      with (currentPage st + 1).
    destruct (Z.eqb_spec (currentPage st + 1) 1); [lia|].
    cbn [fst snd]. rewrite step_goToPage.
    destruct st; unfold setCurrentPage; simpl. f_equal. lia.
  - rewrite (step_fst now1). unfold run at 1. cbn [handle].
    unfold bind, get, goToPage, set, ret. cbn [fst snd].
    destruct (Z.eqb_spec (currentPage st) 1); [contradiction|].
    cbn [fst snd]. rewrite step_goToPage.
    rewrite (step_fst now2). unfold run at 1. cbn [handle].
    unfold bind, get, goToPage, set, ret. cbn [fst snd].
    change (currentPage (setCurrentPage (currentPage st - 1) st))
      with (currentPage st - 1).
    change (totalPages (setCurrentPage (currentPage st - 1) st))
      with (totalPages st).
    destruct (Z.eqb_spec (currentPage st - 1) (totalPages st));
      [contradiction|].
    cbn [fst snd]. rewrite step_goToPage.
    destruct st; unfold setCurrentPage; simpl. f_equal. lia.
Qed.

End Environment.

Lemma mutations_are_scoped_witness :
  exists c,
    contactToDelete Samples.confirming_delete = Some c /\ id c = "2".
Proof.
  apply (mutations_are_scoped Samples.tz_minus_3h Samples.parse_sample
           Samples.sample_now (Samples.backend_with [Samples.ana])
           click_confirm Samples.confirming_delete).
  vm_compute. now left.
Defined.

Lemma collection_replaced_only_by_fetch_witness :
  In select_all
     (snd (step Samples.tz_minus_3h Samples.parse_sample Samples.sample_now
             (Samples.backend_with [Samples.ana])
             (toggle_bot Samples.bruno true) Samples.five_contacts)).
Proof.
  apply (collection_replaced_only_by_fetch Samples.tz_minus_3h
           Samples.parse_sample Samples.sample_now
           (Samples.backend_with [Samples.ana])
           (toggle_bot Samples.bruno true) Samples.five_contacts).
  vm_compute. discriminate.
Defined.

Lemma filtered_view_follows_inputs_witness :
  Subseq
    (filteredContacts
       (fst (step Samples.tz_minus_3h Samples.parse_sample Samples.sample_now
               (Samples.backend_with Samples.sample_contacts)
               click_refresh initialState)))
    (contacts
       (fst (step Samples.tz_minus_3h Samples.parse_sample Samples.sample_now
               (Samples.backend_with Samples.sample_contacts)
               click_refresh initialState))).
Proof.
  apply (filtered_view_follows_inputs Samples.tz_minus_3h
           Samples.parse_sample).
  apply reachable_step, reachable_init.
Defined.

Lemma modal_open_has_contact_witness :
  modal_has_contact
    (fst (step Samples.tz_minus_3h Samples.parse_sample Samples.sample_now
            Samples.failing_backend (click_delete Samples.bruno)
            initialState)).
Proof.
  apply (modal_open_has_contact Samples.tz_minus_3h Samples.parse_sample).
  apply reachable_step, reachable_init.
Defined.

Lemma next_previous_round_trip_witness :
  fst (step Samples.tz_minus_3h Samples.parse_sample Samples.sample_now
         Samples.failing_backend click_next
         (fst (step Samples.tz_minus_3h Samples.parse_sample
                 Samples.sample_now Samples.failing_backend click_previous
                 Samples.second_page)))
  = Samples.second_page.
Proof.
  apply (next_previous_round_trip Samples.tz_minus_3h Samples.parse_sample
           Samples.sample_now Samples.sample_now Samples.failing_backend
           Samples.failing_backend Samples.second_page);
    vm_compute; discriminate.
Defined.

Lemma handleBotToggle_outcomes_witness :
  step Samples.tz_minus_3h Samples.parse_sample Samples.sample_now
       Samples.failing_backend (toggle_bot Samples.bruno true)
       Samples.second_page
  = (Samples.second_page,
     [update_bot_enabled_eq_id true "2";
      console_error "Error updating contact:" Samples.some_error])
  /\ currentPage
       (fst (step Samples.tz_minus_3h Samples.parse_sample Samples.sample_now
               (Samples.backend_with [Samples.ana])
               (toggle_bot Samples.bruno true) Samples.second_page)) = 1.
Proof.
  split.
  - now apply (handleBotToggle_outcomes Samples.tz_minus_3h
                 Samples.parse_sample Samples.sample_now
                 Samples.failing_backend Samples.second_page Samples.bruno
                 true).
  - now apply (handleBotToggle_outcomes Samples.tz_minus_3h
                 Samples.parse_sample Samples.sample_now
                 (Samples.backend_with [Samples.ana]) Samples.second_page
                 Samples.bruno true).
Defined.

End ViewMore.
